(** * GPX-Analyzer: the track pipeline of [app.py]

    A shallow embedding of [parse_gpx], [calculate_features], the three
    renderers and the POST branch of [index], with the pandas operations they
    call, followed by the properties of the pipeline.

    Conventions of the embedding.
    - A Python [float] (and a cell of a [float64] column) is a binary64
      number: Rocq's primitive [float].  [NaN] is pandas' missing value in a
      numeric column.
    - A pandas [Series] carries its dtype, because the operations of the
      source behave differently on a [float64] column and on an [object]
      column of [None]s.
    - A [DataFrame] is its row count and its ordered list of named columns.
    - Python exceptions are an error monad.
    - The libraries outside the repository that compute numbers the source
      does not ([geopy.distance.geodesic], [round]) are Section variables. *)

From Stdlib Require Import List String ZArith Bool Lia.
From Stdlib Require Import Floats Zpower.
Import ListNotations.

Set Warnings "-inexact-float".

Local Open Scope string_scope.
Local Open Scope list_scope.

(** ** Python exceptions and the error monad *)

(** The exceptions the modelled statements can raise.  [InputError] is the
    error class the specification names for rejected input; no statement of
    [app.py] raises it. *)
Inductive exn : Type :=
| KeyError (key : string)
| TypeError
| AttributeError
| InputError.

Inductive result (A : Type) : Type :=
| Ok (a : A)
| Raise (e : exn).
Arguments Ok {A} a.
Arguments Raise {A} e.

Definition bind {A B : Type} (m : result A) (k : A -> result B) : result B :=
  match m with
  | Ok a => k a
  | Raise e => Raise e
  end.

Notation "x <- m ;; k" := (bind m (fun x => k))
  (at level 61, m at next level, right associativity).

Fixpoint mapM {A B : Type} (f : A -> result B) (xs : list A) : result (list B) :=
  match xs with
  | [] => Ok []
  | x :: tl => y <- f x ;; ys <- mapM f tl ;; Ok (y :: ys)
  end.

(** ** Numbers *)

Definition notnan (x : float) : bool := negb (PrimFloat.is_nan x).

(** [int64 -> float64] conversion: the nearest binary64 number. *)
Definition float_of_Z (n : Z) : float :=
  SF2Prim (binary_normalize prec emax n 0 false).

(** [Timedelta.total_seconds()] of a nanosecond count: pandas divides the
    [int64] count by [10**9] in floating point. *)
Definition total_seconds (ns : Z) : float :=
  (float_of_Z ns / 1e9)%float.

(** ** pandas Series *)

(** The Python objects an [object]-dtype column of this program can hold. *)
Inductive obj : Type :=
| ONone
| OFloat (x : float).

(** A Series with its dtype.  [None] in a datetime or timedelta column is
    [NaT]; timestamps and durations are nanosecond counts. *)
Inductive Series : Type :=
| Float64 (xs : list float)
| Datetime64 (ts : list (option Z))
| Timedelta64 (ds : list (option Z))
| Object (os : list obj).

Definition Series_len (s : Series) : nat :=
  match s with
  | Float64 xs => List.length xs
  | Datetime64 ts => List.length ts
  | Timedelta64 ds => List.length ds
  | Object os => List.length os
  end.

(** [pd.Series([None] * n)] *)
Definition Series_of_Nones (n : nat) : Series := Object (repeat ONone n).

(** [pd.Series([0] * n)]: the integer zeros are read as the floats they
    become in every later operation. *)
Definition Series_of_zeros (n : nat) : Series := Float64 (repeat 0%float n).

Definition is_None {A : Type} (v : option A) : bool :=
  match v with None => true | Some _ => false end.

Definition obj_isnull (o : obj) : bool :=
  match o with
  | ONone => true
  | OFloat x => PrimFloat.is_nan x
  end.

(** [s.isnull().all()] *)
Definition isnull_all (s : Series) : bool :=
  match s with
  | Float64 xs => forallb PrimFloat.is_nan xs
  | Datetime64 ts => forallb is_None ts
  | Timedelta64 ds => forallb is_None ds
  | Object os => forallb obj_isnull os
  end.

(** [isnull] of the cell at position [i]: [None], [NaN] and [NaT] are the
    missing values.  A position outside the column has no cell. *)
Definition isnull_at (s : Series) (i : nat) : option bool :=
  match s with
  | Float64 xs => option_map PrimFloat.is_nan (nth_error xs i)
  | Datetime64 ts => option_map is_None (nth_error ts i)
  | Timedelta64 ds => option_map is_None (nth_error ds i)
  | Object os => option_map obj_isnull (nth_error os i)
  end.

(** Rows move up by one; the freed last cell takes the fill value. *)
Definition shift_up {A : Type} (fill : A) (xs : list A) : list A :=
  match xs with
  | [] => []
  | _ :: tl => tl ++ [fill]
  end.

(** [s.shift(-1)]: the fill value is [NaN], or [NaT] for datetime-like
    columns. *)
Definition shift_neg1 (s : Series) : Series :=
  match s with
  | Float64 xs => Float64 (shift_up nan xs)
  | Datetime64 ts => Datetime64 (shift_up None ts)
  | Timedelta64 ds => Timedelta64 (shift_up None ds)
  | Object os => Object (shift_up (OFloat nan) os)
  end.

Fixpoint zip_with {A B C : Type} (f : A -> B -> C) (xs : list A) (ys : list B) : list C :=
  match xs, ys with
  | x :: xt, y :: yt => f x y :: zip_with f xt yt
  | _, _ => []
  end.

Definition NaT_sub (a b : option Z) : option Z :=
  match a, b with
  | Some x, Some y => Some (x - y)%Z
  | _, _ => None
  end.

(** Python's [a - b] on the objects of an [object] column. *)
Definition obj_sub (ab : obj * obj) : result obj :=
  match ab with
  | (OFloat x, OFloat y) => Ok (OFloat (x - y)%float)
  | _ => Raise TypeError
  end.

(** One cell of the operator [a - b] of pandas on two [object] columns: the
    [TypeError] of a missing cell is not let out, the cell is [NaN]. *)
Definition obj_sub_masked (a b : obj) : obj :=
  match a, b with
  | OFloat x, OFloat y => OFloat (x - y)%float
  | _, _ => OFloat nan
  end.

(** [a - b] on two Series of equal length. *)
Definition Series_sub (a b : Series) : result Series :=
  match a, b with
  | Float64 xs, Float64 ys => Ok (Float64 (zip_with PrimFloat.sub xs ys))
  | Datetime64 xs, Datetime64 ys => Ok (Timedelta64 (zip_with NaT_sub xs ys))
  | Timedelta64 xs, Timedelta64 ys => Ok (Timedelta64 (zip_with NaT_sub xs ys))
  | Object xs, Object ys => Ok (Object (zip_with obj_sub_masked xs ys))
  | _, _ => Raise TypeError
  end.

(** [a / b] on two Series of equal length: numpy's true division, which
    yields [inf] or [NaN] on a zero divisor and raises nothing. *)
Definition Series_div (a b : Series) : result Series :=
  match a, b with
  | Float64 xs, Float64 ys => Ok (Float64 (zip_with PrimFloat.div xs ys))
  | _, _ => Raise TypeError
  end.

(** [s.dt.total_seconds()]: the [.dt] accessor exists on datetime-like
    columns only; [NaT] becomes [NaN]. *)
Definition dt_total_seconds (s : Series) : result Series :=
  match s with
  | Timedelta64 ds =>
      Ok (Float64 (map (fun d => match d with
                                   | Some ns => total_seconds ns
                                   | None => nan
                                   end) ds))
  | _ => Raise AttributeError
  end.

(** [s.diff()]: the first cell is [NaN] ([NaT]), cell [i] is
    [s[i] - s[i-1]].  On an [object] column numpy subtracts the two shifted
    arrays cell by cell with Python's [-]: [None - None] is a [TypeError].
    A column of one cell has no pair to subtract. *)
Definition diff_cells {A : Type} (sub : A -> A -> A) (na : A) (xs : list A) : list A :=
  match xs with
  | [] => []
  | x :: tl => na :: zip_with sub tl (x :: tl)
  end.

Definition Series_diff (s : Series) : result Series :=
  match s with
  | Float64 xs => Ok (Float64 (diff_cells PrimFloat.sub nan xs))
  | Datetime64 ts => Ok (Timedelta64 (diff_cells NaT_sub None ts))
  | Timedelta64 ds => Ok (Timedelta64 (diff_cells NaT_sub None ds))
  | Object [] => Ok (Object [])
  | Object (x :: tl) =>
      os <- mapM obj_sub (combine tl (x :: tl)) ;; Ok (Object (OFloat nan :: os))
  end.

(** One cell of [clip(lower=0)]: a missing cell or a cell [>= 0] is kept,
    any other becomes the bound. *)
Definition clip_lower0 (x : float) : float :=
  if (PrimFloat.is_nan x || (0 <=? x)%float)%bool then x else 0%float.

Definition obj_clip_lower0 (o : obj) : result obj :=
  match o with
  | OFloat x => Ok (OFloat (clip_lower0 x))
  | ONone => Raise TypeError
  end.

(** [s.clip(lower=0)] *)
Definition Series_clip_lower0 (s : Series) : result Series :=
  match s with
  | Float64 xs => Ok (Float64 (map clip_lower0 xs))
  | Object os => os' <- mapM obj_clip_lower0 os ;; Ok (Object os')
  | _ => Raise TypeError
  end.

(** The sum of the cells that are not [NaN], in index order, from 0.  (numpy
    adds long columns pairwise; the order only matters for the last bits of
    the result.) *)
Definition nansum_step (acc x : float) : float :=
  if PrimFloat.is_nan x then acc else (acc + x)%float.

Definition nansum (xs : list float) : float :=
  fold_left nansum_step xs 0%float.

(** The number of the cells that are not [NaN]. *)
Definition nancount (xs : list float) : Z :=
  Z.of_nat (List.length (filter notnan xs)).

Definition obj_value (o : obj) : float :=
  match o with
  | ONone => nan
  | OFloat x => x
  end.

(** [s.sum()] with the default [skipna=True]. *)
Definition Series_sum (s : Series) : result float :=
  match s with
  | Float64 xs => Ok (nansum xs)
  | Object os => Ok (nansum (map obj_value os))
  | _ => Raise TypeError
  end.

Definition nanmean (xs : list float) : float :=
  if (0 <? nancount xs)%Z then (nansum xs / float_of_Z (nancount xs))%float else nan.

(** [s.mean()] with the default [skipna=True]: [NaN] when no cell counts. *)
Definition Series_mean (s : Series) : result float :=
  match s with
  | Float64 xs => Ok (nanmean xs)
  | Object os => Ok (nanmean (map obj_value os))
  | _ => Raise TypeError
  end.

(** ** pandas DataFrame *)

Record DataFrame : Type := {
  nrows : nat;
  columns : list (string * Series)
}.

(** [len(df)] *)
Definition len (df : DataFrame) : nat := nrows df.

Fixpoint lookup (name : string) (cols : list (string * Series)) : option Series :=
  match cols with
  | [] => None
  | (k, s) :: tl => if String.eqb k name then Some s else lookup name tl
  end.

(** [name in df.columns] *)
Definition contains (df : DataFrame) (name : string) : bool :=
  match lookup name (columns df) with Some _ => true | None => false end.

(** [df[name]] *)
Definition getitem (df : DataFrame) (name : string) : result Series :=
  match lookup name (columns df) with
  | Some s => Ok s
  | None => Raise (KeyError name)
  end.

Fixpoint assign (name : string) (s : Series) (cols : list (string * Series))
  : list (string * Series) :=
  match cols with
  | [] => [(name, s)]
  | (k, old) :: tl =>
      if String.eqb k name then (k, s) :: tl else (k, old) :: assign name s tl
  end.

(** [df[name] = s]: an existing column is replaced in place, a new one is
    appended. *)
Definition setitem (df : DataFrame) (name : string) (s : Series) : DataFrame :=
  {| nrows := nrows df; columns := assign name s (columns df) |}.

Fixpoint remove (name : string) (cols : list (string * Series))
  : list (string * Series) :=
  match cols with
  | [] => []
  | (k, s) :: tl => if String.eqb k name then tl else (k, s) :: remove name tl
  end.

(** [df.drop(columns=names)]: a name that is not a column is a [KeyError]. *)
Fixpoint drop (df : DataFrame) (names : list string) : result DataFrame :=
  match names with
  | [] => Ok df
  | name :: rest =>
      if contains df name
      then drop {| nrows := nrows df; columns := remove name (columns df) |} rest
      else Raise (KeyError name)
  end.

(** ** The parsed GPX document *)

(** [gpxpy]'s objects, as far as [parse_gpx] reads them.  A track point always
    has the attributes [elevation] and [time] ([None] when the file gives
    none), so both [hasattr] tests of the source are true; [latitude] and
    [longitude] are mandatory in the file format.  A timestamp is its
    nanosecond count since the epoch: the timestamps of a document are taken
    to be written with one UTC offset (pandas leaves a column that mixes
    offsets at the dtype [object], where [.dt] raises an
    [AttributeError]). *)
Record GPXTrackPoint : Type := {
  latitude : float;
  longitude : float;
  elevation : option float;
  time : option Z
}.

Record GPXTrackSegment : Type := { points : list GPXTrackPoint }.
Record GPXTrack : Type := { segments : list GPXTrackSegment }.
Record GPX : Type := { tracks : list GPXTrack }.

(** The three nested loops of [parse_gpx]: one dictionary per point, in
    document order.  The dictionary has the four keys of the point record. *)
Definition collect (gpx : GPX) : list GPXTrackPoint :=
  flat_map (fun track =>
    flat_map (fun segment =>
      map (fun point =>
             {| latitude := latitude point;
                longitude := longitude point;
                elevation := elevation point;
                time := time point |})
          (points segment))
      (segments track))
    (tracks gpx).

(** Column inference of [pd.DataFrame]: a column whose every value is [None]
    keeps the dtype [object]; a column of floats and [None]s is [float64] with
    [NaN] for [None]; a column of datetimes and [None]s is [datetime64] with
    [NaT] for [None]. *)
Definition float_column (vs : list (option float)) : Series :=
  if forallb is_None vs
  then Object (map (fun _ => ONone) vs)
  else Float64 (map (fun v => match v with Some x => x | None => nan end) vs).

Definition datetime_column (vs : list (option Z)) : Series :=
  if forallb is_None vs
  then Object (map (fun _ => ONone) vs)
  else Datetime64 vs.

(** [pd.DataFrame(data)] on the list of dictionaries: no dictionary, no
    column. *)
Definition DataFrame_of_records (data : list GPXTrackPoint) : DataFrame :=
  match data with
  | [] => {| nrows := 0; columns := [] |}
  | _ :: _ =>
      {| nrows := List.length data;
         columns :=
           [ ("latitude", Float64 (map latitude data));
             ("longitude", Float64 (map longitude data));
             ("elevation", float_column (map elevation data));
             ("time", datetime_column (map time data)) ] |}
  end.

(** The cells of a row that [calculate_distance] reads. *)
Record Row : Type := {
  row_latitude : float;
  row_longitude : float;
  row_shifted_latitude : float;
  row_shifted_longitude : float
}.

Fixpoint rows_of (lat lon slat slon : list float) : list Row :=
  match lat, lon, slat, slon with
  | a :: lat', b :: lon', c :: slat', d :: slon' =>
      {| row_latitude := a; row_longitude := b;
         row_shifted_latitude := c; row_shifted_longitude := d |}
      :: rows_of lat' lon' slat' slon'
  | _, _, _, _ => []
  end.

(** The rows [df.apply(..., axis=1)] hands to its function.  The four
    columns read are [float64] in every frame [parse_gpx] builds. *)
Definition iterrows (df : DataFrame) : result (list Row) :=
  lat <- getitem df "latitude" ;;
  lon <- getitem df "longitude" ;;
  slat <- getitem df "shifted_latitude" ;;
  slon <- getitem df "shifted_longitude" ;;
  match lat, lon, slat, slon with
  | Float64 a, Float64 b, Float64 c, Float64 d => Ok (rows_of a b c d)
  | _, _, _, _ => Raise TypeError
  end.

Section Pipeline.

(** [geodesic(start, end).meters] of geopy, on (latitude, longitude)
    pairs.  geopy raises a [ValueError] on a latitude outside [-90, 90] and
    on a coordinate that is not finite: the variable is the distance on the
    pairs geopy accepts, and [parse_gpx] below is the function of the source
    on the documents whose coordinates are of that kind.  What is stated of
    a frame [parse_gpx] returns does not depend on it. *)
Variable geodesic : float * float -> float * float -> float.

(** Python's [round(x, 2)]. *)
Variable round2 : float -> float.

(** The condition of [calculate_distance]: the row has a successor. *)
Definition has_successor (row : Row) : bool :=
  notnan (row_shifted_latitude row) && notnan (row_shifted_longitude row).

Definition calculate_distance (row : Row) : float :=
  if has_successor row
  then geodesic (row_latitude row, row_longitude row)
                (row_shifted_latitude row, row_shifted_longitude row)
  else 0%float.

(** [df.apply(calculate_distance, axis=1)] *)
Definition apply_calculate_distance (df : DataFrame) : result Series :=
  rows <- iterrows df ;;
  Ok (Float64 (map calculate_distance rows)).

(** [parse_gpx], from the parsed document on. *)
Definition parse_gpx (gpx : GPX) : result DataFrame :=
  let data := collect gpx in
  let df := DataFrame_of_records data in
  let df :=
    if negb (contains df "elevation")
    then setitem df "elevation" (Series_of_zeros (len df))
    else df in
  no_time <-
    (if negb (contains df "time") then Ok true
     else t <- getitem df "time" ;; Ok (isnull_all t)) ;;
  let df :=
    if no_time then setitem df "time" (Series_of_Nones (len df)) else df in
  lat <- getitem df "latitude" ;;
  let df := setitem df "shifted_latitude" (shift_neg1 lat) in
  lon <- getitem df "longitude" ;;
  let df := setitem df "shifted_longitude" (shift_neg1 lon) in
  t <- getitem df "time" ;;
  let df := setitem df "shifted_time" (shift_neg1 t) in
  distance <- apply_calculate_distance df ;;
  let df := setitem df "distance" distance in
  t <- getitem df "time" ;;
  df <-
    (if negb (isnull_all t)
     then
       shifted_time <- getitem df "shifted_time" ;;
       t <- getitem df "time" ;;
       delta <- Series_sub shifted_time t ;;
       time_diff <- dt_total_seconds delta ;;
       let df := setitem df "time_diff" time_diff in
       distance <- getitem df "distance" ;;
       time_diff <- getitem df "time_diff" ;;
       speed <- Series_div distance time_diff ;;
       Ok (setitem df "speed" speed)
     else Ok (setitem df "speed" (Series_of_Nones (len df)))) ;;
  drop df ["shifted_latitude"; "shifted_longitude"; "shifted_time"].

(** [calculate_features]: the three statistics, in the order of the
    source. *)
Definition calculate_features (df : DataFrame) : result (float * float * float) :=
  distance <- getitem df "distance" ;;
  distance_sum <- Series_sum distance ;;
  let total_distance := round2 (distance_sum / 1000)%float in
  speed <- getitem df "speed" ;;
  speed_mean <- Series_mean speed ;;
  let average_speed := round2 (speed_mean * 3.6)%float in
  elevation <- getitem df "elevation" ;;
  elevation_diff <- Series_diff elevation ;;
  clipped <- Series_clip_lower0 elevation_diff ;;
  gain <- Series_sum clipped ;;
  let total_elevation_gain := round2 gain in
  Ok (total_distance, average_speed, total_elevation_gain).

(** *** The frame [parse_gpx] returns, column by column *)

Definition apply_rows (data : list GPXTrackPoint) : list Row :=
  rows_of (map latitude data) (map longitude data)
          (shift_up nan (map latitude data)) (shift_up nan (map longitude data)).

Definition distance_cells (data : list GPXTrackPoint) : list float :=
  map calculate_distance (apply_rows data).

Definition seconds_or_nan (d : option Z) : float :=
  match d with
  | Some ns => total_seconds ns
  | None => nan
  end.

Definition time_diff_cells (data : list GPXTrackPoint) : list float :=
  map seconds_or_nan
      (zip_with NaT_sub (shift_up None (map time data)) (map time data)).

Definition speed_cells (data : list GPXTrackPoint) : list float :=
  zip_with PrimFloat.div (distance_cells data) (time_diff_cells data).

(** No point of the track carries a timestamp. *)
Definition timeless (data : list GPXTrackPoint) : bool :=
  forallb is_None (map time data).

Definition built (data : list GPXTrackPoint) : DataFrame :=
  {| nrows := List.length data;
     columns :=
       [ ("latitude", Float64 (map latitude data));
         ("longitude", Float64 (map longitude data));
         ("elevation", float_column (map elevation data));
         ("time", if timeless data
                  then Series_of_Nones (List.length data)
                  else Datetime64 (map time data));
         ("distance", Float64 (distance_cells data)) ]
       ++ (if timeless data
           then [ ("speed", Series_of_Nones (List.length data)) ]
           else [ ("time_diff", Float64 (time_diff_cells data));
                  ("speed", Float64 (speed_cells data)) ]) |}.

End Pipeline.


(** ** Rendering and the request handler *)

(** The three artifacts of a response. *)
Inductive artifact : Type :=
| MapArtifact
| ElevationProfile
| SpeedDistribution.

(** A computation that may raise and that records, in call order, the
    artifacts whose renderer was entered. *)
Definition IO (A : Type) : Type := (list artifact * result A)%type.

Definition ret {A : Type} (a : A) : IO A := ([], Ok a).

Definition lift {A : Type} (r : result A) : IO A := ([], r).

Definition attempt (a : artifact) : IO unit := ([a], Ok tt).

Definition io_bind {A B : Type} (m : IO A) (k : A -> IO B) : IO B :=
  match m with
  | (log, Ok a) => let (log', r) := k a in (log ++ log', r)
  | (log, Raise e) => (log, Raise e)
  end.

Notation "x <~ m ;; k" := (io_bind m (fun x => k))
  (at level 61, m at next level, right associativity).

(** [try: body / except Exception: return None] *)
Definition try_except_None {A : Type} (body : IO A) : IO (option A) :=
  match body with
  | (log, Ok a) => (log, Ok (Some a))
  | (log, Raise _) => (log, Ok None)
  end.

(** [s.cumsum()]: missing cells count as 0 in the running sum and stay
    missing in the result. *)
Fixpoint cumsum_from (acc : float) (xs : list float) : list float :=
  match xs with
  | [] => []
  | x :: tl =>
      let acc' := (acc + (if PrimFloat.is_nan x then 0 else x))%float in
      (if PrimFloat.is_nan x then nan else acc') :: cumsum_from acc' tl
  end.

Definition Series_cumsum (s : Series) : result Series :=
  match s with
  | Float64 [] => Ok (Float64 [])
  | Float64 (x :: tl) =>
      let first := if PrimFloat.is_nan x then 0%float else x in
      Ok (Float64 ((if PrimFloat.is_nan x then nan else first) :: cumsum_from first tl))
  | _ => Raise TypeError
  end.

(** [s / c] and [s * c] for a float [c]. *)
Definition Series_div_scalar (s : Series) (c : float) : result Series :=
  match s with
  | Float64 xs => Ok (Float64 (map (fun x => x / c)%float xs))
  | _ => Raise TypeError
  end.

(** One cell of [s * c] on an [object] column.  Python cannot multiply
    [None], and pandas does not let that [TypeError] out: it repeats the
    operation on the cells that are not missing and leaves [NaN] in the
    others. *)
Definition obj_mul_scalar (c : float) (o : obj) : result obj :=
  match o with
  | OFloat x => Ok (OFloat (x * c)%float)
  | ONone => Ok (OFloat nan)
  end.

Definition Series_mul_scalar (s : Series) (c : float) : result Series :=
  match s with
  | Float64 xs => Ok (Float64 (map (fun x => x * c)%float xs))
  | Object os => os' <- mapM (obj_mul_scalar c) os ;; Ok (Object os')
  | _ => Raise TypeError
  end.

(** [str + token]: a [TypeError] when the token is [None]. *)
Definition str_concat (prefix : string) (token : option string) : result string :=
  match token with
  | Some t => Ok (String.append prefix t)
  | None => Raise TypeError
  end.

(** The response of a successful request: the values handed to the
    [results.html] template. *)
Record Response : Type := {
  total_distance : float;
  average_speed : float;
  total_elevation_gain : float;
  map_file_path : string;
  plot_file_path : option string
}.

Section Rendering.

Variable geodesic : float * float -> float * float -> float.
Variable round2 : float -> float.

(** [os.getenv('MAPBOX_ACCESS_TOKEN')], read once at start-up. *)
Variable MAPBOX_ACCESS_TOKEN : option string.

(** The calls into the file system, folium and matplotlib: each either
    returns or raises.  [makedirs] stands for the test-and-create of the map
    directory; [folium_Map] for [folium.Map] at a centre with a tile URL;
    [folium_save] for adding the polyline and saving the map;
    [pyplot_elevation] and [pyplot_hist] for drawing a figure from its data
    and saving it. *)
Variable makedirs : string -> result unit.
Variable folium_Map : float * float -> string -> result unit.
Variable folium_save : list (float * float) -> string -> result unit.
Variable pyplot_elevation : Series -> Series -> string -> result unit.
Variable pyplot_hist : Series -> string -> result unit.

(** [[(row['latitude'], row['longitude']) for index, row in df.iterrows()]] *)
Definition locations (df : DataFrame) : result (list (float * float)) :=
  lat <- getitem df "latitude" ;;
  lon <- getitem df "longitude" ;;
  match lat, lon with
  | Float64 a, Float64 b => Ok (combine a b)
  | _, _ => Raise TypeError
  end.

(** [create_map]: no [try] around its body. *)
Definition create_map (df : DataFrame) : IO string :=
  _ <~ attempt MapArtifact ;;
  _ <~ lift (makedirs "static/maps") ;;
  lat <~ lift (getitem df "latitude") ;;
  lat_mean <~ lift (Series_mean lat) ;;
  lon <~ lift (getitem df "longitude") ;;
  lon_mean <~ lift (Series_mean lon) ;;
  tiles <~ lift (str_concat
    "https://api.mapbox.com/styles/v1/mapbox/streets-v11/tiles/{z}/{x}/{y}?access_token="
    MAPBOX_ACCESS_TOKEN) ;;
  _ <~ lift (folium_Map (lat_mean, lon_mean) tiles) ;;
  route <~ lift (locations df) ;;
  _ <~ lift (folium_save route "static/maps/map.html") ;;
  ret "static/maps/map.html".

(** [create_elevation_plot]: the whole body is inside [try]. *)
Definition create_elevation_plot (df : DataFrame) : IO (option string) :=
  _ <~ attempt ElevationProfile ;;
  try_except_None
    (distance <~ lift (getitem df "distance") ;;
     cumulative <~ lift (Series_cumsum distance) ;;
     x <~ lift (Series_div_scalar cumulative 1000) ;;
     y <~ lift (getitem df "elevation") ;;
     _ <~ lift (pyplot_elevation x y "static/images/elevation_plot.png") ;;
     ret "static/images/elevation_plot.png").

(** [create_speed_distribution_plot]: the whole body is inside [try]. *)
Definition create_speed_distribution_plot (df : DataFrame) : IO (option string) :=
  _ <~ attempt SpeedDistribution ;;
  try_except_None
    (speed <~ lift (getitem df "speed") ;;
     kmh <~ lift (Series_mul_scalar speed 3.6) ;;
     _ <~ lift (pyplot_hist kmh "static/images/speed_distribution_plot.png") ;;
     ret "static/images/speed_distribution_plot.png").

(** The POST branch of [index], from the parsed document on. *)
Definition index (gpx : GPX) : IO Response :=
  df <~ lift (parse_gpx geodesic gpx) ;;
  features <~ lift (calculate_features round2 df) ;;
  let '(distance, speed, gain) := features in
  map_path <~ create_map df ;;
  plot_path <~ create_elevation_plot df ;;
  ret {| total_distance := distance;
         average_speed := speed;
         total_elevation_gain := gain;
         map_file_path := map_path;
         plot_file_path := plot_path |}.

End Rendering.

(** ** The sample listing and the route *)

(** [s.endswith(suffix)]: some tail of [s] is [suffix]. *)
Fixpoint endswith (s suffix : string) : bool :=
  if String.eqb s suffix then true
  else match s with
       | EmptyString => false
       | String _ rest => endswith rest suffix
       end.

(** [s.startswith(prefix)] *)
Definition startswith (s prefix : string) : bool := String.prefix prefix s.

(** [os.path.join(a, b)] of [posixpath]: an absolute [b] replaces [a]. *)
Definition os_path_join (a b : string) : string :=
  if startswith b "/" then b
  else if (String.eqb a "" || endswith a "/")%bool then String.append a b
  else String.append a (String.append "/" b).

(** [app.config['UPLOAD_FOLDER']] and [app.config['SAMPLE_FOLDER']] *)
Definition UPLOAD_FOLDER : string := "uploads".
Definition SAMPLE_FOLDER : string := os_path_join "static" "sample_gpx_files".

(** The exceptions that leave the view function: Werkzeug's for a missing
    form field, Python's for a local variable read before assignment, the
    file system's, gpxpy's, and any exception of the pipeline. *)
Inductive http_error : Type :=
| BadRequestKeyError (key : string)
| UnboundLocalError (name : string)
| OSError (path : string)
| GPXException
| Uncaught (e : exn).

Inductive outcome (A : Type) : Type :=
| Returned (a : A)
| Raised (e : http_error).
Arguments Returned {A} a.
Arguments Raised {A} e.

(** An uploaded file: its client-side name and its bytes. *)
Record FileStorage : Type := {
  filename : string;
  stream : string
}.

(** The request, as far as [index] reads it. *)
Record Request : Type := {
  method : string;
  url : string;
  form : list (string * string);
  files : list (string * FileStorage)
}.

(** [d[key]] / [key in d] on the request's dictionaries: the first value of
    the key. *)
Fixpoint multidict_get {A : Type} (key : string) (d : list (string * A)) : option A :=
  match d with
  | [] => None
  | (k, v) :: tl => if String.eqb k key then Some v else multidict_get key tl
  end.

(** What the view function hands back to Flask. *)
Inductive page : Type :=
| IndexPage (sample_files : list string)
| Redirect (location : string)
| ResultsPage (response : Response).

Section Route.

Variable geodesic : float * float -> float * float -> float.
Variable round2 : float -> float.
Variable MAPBOX_ACCESS_TOKEN : option string.
Variable makedirs : string -> result unit.
Variable folium_Map : float * float -> string -> result unit.
Variable folium_save : list (float * float) -> string -> result unit.
Variable pyplot_elevation : Series -> Series -> string -> result unit.

(** The file system, and the calls into it: [os.listdir], [file.save]
    (which leaves a file system behind even when it raises),
    [open(...).read()], and [gpxpy.parse] of the text read.  The renderers
    write into the same file system ([os.makedirs], [m.save] and
    [plt.savefig], under [static/]): [rendered fs gpx] is what the renderers
    entered for the document [gpx] leave of [fs]. *)
Variable FS : Type.
Variable listdir : FS -> string -> outcome (list string).
Variable save : FS -> string -> string -> FS * outcome unit.
Variable read : FS -> string -> outcome string.
Variable gpxpy_parse : string -> outcome GPX.
Variable rendered : FS -> GPX -> FS.

(** The state a request leaves, the artifacts it attempted, and its
    reply. *)
Record Reply : Type := {
  fs_after : FS;
  attempted : list artifact;
  reply : outcome page
}.

Definition get_sample_files (fs : FS) : outcome (list string) :=
  match listdir fs SAMPLE_FOLDER with
  | Returned listing => Returned (filter (fun f => endswith f ".gpx") listing)
  | Raised e => Raised e
  end.

(** Where the two [if] branches of a POST leave the function: returned
    early, or at [parse_gpx(file_path)] with [file_path] assigned or not. *)
Inductive branch : Type :=
| Return (r : Reply)
| Continue (fs : FS) (file_path : option string).

(** [file_option == 'upload']: [if file:] holds for every file with a
    non-empty name. *)
Definition upload_branch (request : Request) (fs : FS) : branch :=
  match multidict_get "gpxfile" (files request) with
  | None =>
      Return {| fs_after := fs; attempted := []; reply := Returned (Redirect (url request)) |}
  | Some file =>
      if String.eqb (filename file) ""
      then Return {| fs_after := fs; attempted := [];
                     reply := Returned (Redirect (url request)) |}
      else
        let file_path := os_path_join UPLOAD_FOLDER (filename file) in
        match save fs file_path (stream file) with
        | (fs', Returned _) => Continue fs' (Some file_path)
        | (fs', Raised e) => Return {| fs_after := fs'; attempted := []; reply := Raised e |}
        end
  end.

(** [file_option == 'sample'] *)
Definition sample_branch (request : Request) (fs : FS) : branch :=
  match multidict_get "sample_file" (form request) with
  | None =>
      Return {| fs_after := fs; attempted := [];
                reply := Raised (BadRequestKeyError "sample_file") |}
  | Some sample_file => Continue fs (Some (os_path_join SAMPLE_FOLDER sample_file))
  end.

(** From [df = parse_gpx(file_path)] to [render_template('results.html')]:
    the file is opened and parsed, then the pipeline of [index] runs.  The
    file is read before any renderer is entered; a request that enters none
    writes nothing. *)
Definition results_page (fs : FS) (file_path : option string) : Reply :=
  match file_path with
  | None =>
      {| fs_after := fs; attempted := []; reply := Raised (UnboundLocalError "file_path") |}
  | Some path =>
      match read fs path with
      | Raised e => {| fs_after := fs; attempted := []; reply := Raised e |}
      | Returned text =>
          match gpxpy_parse text with
          | Raised e => {| fs_after := fs; attempted := []; reply := Raised e |}
          | Returned gpx =>
              let run := index geodesic round2 MAPBOX_ACCESS_TOKEN makedirs folium_Map
                               folium_save pyplot_elevation gpx in
              {| fs_after := match fst run with
                             | [] => fs
                             | _ :: _ => rendered fs gpx
                             end;
                 attempted := fst run;
                 reply := match snd run with
                          | Ok response => Returned (ResultsPage response)
                          | Raise e => Raised (Uncaught e)
                          end |}
          end
      end
  end.

(** The view function of the route ['/']. *)
Definition index_route (request : Request) (fs : FS) : Reply :=
  match get_sample_files fs with
  | Raised e => {| fs_after := fs; attempted := []; reply := Raised e |}
  | Returned sample_files =>
      if String.eqb (method request) "POST"
      then
        match multidict_get "file_option" (form request) with
        | None =>
            {| fs_after := fs; attempted := [];
               reply := Raised (BadRequestKeyError "file_option") |}
        | Some file_option =>
            let after :=
              if String.eqb file_option "upload" then upload_branch request fs
              else if String.eqb file_option "sample" then sample_branch request fs
              else Continue fs None in
            match after with
            | Return r => r
            | Continue fs' file_path => results_page fs' file_path
            end
        end
      else {| fs_after := fs; attempted := []; reply := Returned (IndexPage sample_files) |}
  end.

End Route.

(** ** Notions used to state the properties *)

(** The timestamp of the point at position [i], if there is one. *)
Definition time_at (data : list GPXTrackPoint) (i : nat) : option Z :=
  match nth_error data i with
  | Some p => time p
  | None => None
  end.

(** A point whose coordinates are numbers. *)
Definition valid_point (p : GPXTrackPoint) : Prop :=
  notnan (latitude p) = true /\ notnan (longitude p) = true.

(** All segments of the document, across tracks, in document order. *)
Definition all_segments (gpx : GPX) : list GPXTrackSegment :=
  flat_map segments (tracks gpx).

(** The values a sum of non-negative cells runs through: numbers that are
    not negative, not the negative zero and not [NaN]. *)
Definition SF_nonneg (s : spec_float) : bool :=
  match s with
  | S754_zero false | S754_infinity false | S754_finite false _ _ => true
  | _ => false
  end.

(** A cell that a sum may meet: missing, or not negative. *)
Definition nan_or_nonneg (x : float) : Prop :=
  PrimFloat.is_nan x = true \/ (0 <=? x)%float = true.

(** Python's [max(0, x)]: [x] when [x > 0], else the 0 it started from. *)
Definition max0 (x : float) : float :=
  if (0 <? x)%float then x else 0%float.

(** The specification's formula for the elevation gain, before rounding:
    the sum over consecutive pairs of [max(0, elevation[i+1] - elevation[i])]. *)
Definition elevation_gain_formula (es : list float) : float :=
  fold_left PrimFloat.add
            (zip_with (fun next current => max0 (next - current)) (tl es) es)
            0%float.

(** A sequence of elevations that never rises. *)
Definition non_increasing (es : list float) : Prop :=
  forall i a b,
    nth_error es i = Some a -> nth_error es (S i) = Some b -> (b <=? a)%float = true.

(** *** Stand-ins for the examples *)

(** The geodesic between two points of the equator: the arc of the
    equatorial circle of WGS84 between their longitudes, 6378137 m times the
    angle; 0 when that is not a number. *)
Definition equator_geodesic (a b : float * float) : float :=
  let d := (abs (snd b - snd a) * 111319.49079327357)%float in
  if (0 <=? d)%float then d else 0%float.

(** Rounding left out. *)
Definition unrounded (x : float) : float := x.

Definition trkpt (lat lon : float) (ele : option float) (t : option Z) : GPXTrackPoint :=
  {| latitude := lat; longitude := lon; elevation := ele; time := t |}.

(** A document of one track with one segment. *)
Definition single_segment (ps : list GPXTrackPoint) : GPX :=
  {| tracks := [ {| segments := [ {| points := ps |} ] |} ] |}.

Definition seconds (n : Z) : Z := (n * 1000000000)%Z.

(** *** Example documents, all on the equator *)

(** Three points 0.001 degree apart, without elevation and without time. *)
Definition bare_track : GPX :=
  single_segment [ trkpt 0 0 None None; trkpt 0 0.001 None None; trkpt 0 0.002 None None ].

(** Three points of which the last has no timestamp and only the first has
    an elevation. *)
Definition mixed_track : GPX :=
  single_segment [ trkpt 0 0 (Some 100%float) (Some (seconds 0));
                   trkpt 0 0.001 None (Some (seconds 10));
                   trkpt 0 0.002 None None ].

(** Two distinct points recorded at the same instant. *)
Definition same_instant_track : GPX :=
  single_segment [ trkpt 0 0 (Some 100%float) (Some (seconds 5));
                   trkpt 0 0.001 (Some 100%float) (Some (seconds 5)) ].

(** Two points of which the second was recorded five seconds before the
    first. *)
Definition backwards_track : GPX :=
  single_segment [ trkpt 0 0 (Some 100%float) (Some (seconds 10));
                   trkpt 0 0.001 (Some 100%float) (Some (seconds 5)) ].

(** Two timed points without elevation. *)
Definition flat_timed_track : GPX :=
  single_segment [ trkpt 0 0 None (Some (seconds 0));
                   trkpt 0 0.001 None (Some (seconds 10)) ].

(** A climb of 30 m between two timed points. *)
Definition climb_track : GPX :=
  single_segment [ trkpt 0 0 (Some 100%float) (Some (seconds 0));
                   trkpt 0 0.001 (Some 130%float) (Some (seconds 10)) ].

(** A descent of 20 m between two points without time. *)
Definition descent_track : GPX :=
  single_segment [ trkpt 0 0 (Some 100%float) None; trkpt 0 0.001 (Some 80%float) None ].

(** Twice the same place, ten seconds apart. *)
Definition pause_track : GPX :=
  single_segment [ trkpt 0 0 (Some 100%float) (Some (seconds 0));
                   trkpt 0 0 (Some 100%float) (Some (seconds 10)) ].

(** Twice the same place at the same instant. *)
Definition duplicate_track : GPX :=
  single_segment [ trkpt 0 0 (Some 100%float) (Some (seconds 5));
                   trkpt 0 0 (Some 100%float) (Some (seconds 5)) ].

(** A document without tracks. *)
Definition empty_document : GPX := {| tracks := [] |}.

(** One track of two segments of one point each, ten seconds apart. *)
Definition first_segment : GPXTrackSegment :=
  {| points := [ trkpt 0 0 (Some 100%float) (Some (seconds 0)) ] |}.
Definition second_segment : GPXTrackSegment :=
  {| points := [ trkpt 0 0.001 (Some 100%float) (Some (seconds 10)) ] |}.
Definition two_segment_track : GPX :=
  {| tracks := [ {| segments := [ first_segment; second_segment ] |} ] |}.

(** File system and plotting libraries that never fail. *)
Definition makedirs_ok (path : string) : result unit := Ok tt.
Definition folium_Map_ok (centre : float * float) (tiles : string) : result unit := Ok tt.
Definition folium_save_ok (route : list (float * float)) (path : string) : result unit :=
  Ok tt.
Definition pyplot_elevation_ok (x y : Series) (path : string) : result unit := Ok tt.
Definition pyplot_hist_ok (x : Series) (path : string) : result unit := Ok tt.

(** *** A file system for the examples *)

(** Files by path; the sample folder holds a track and a text file. *)
Definition demo_fs : Type := list (string * string).

Definition demo_listdir (fs : demo_fs) (dir : string) : outcome (list string) :=
  if String.eqb dir "static/sample_gpx_files"
  then Returned ["climb.gpx"; "notes.txt"; "old.GPX"]
  else Raised (OSError dir).

Definition demo_save (fs : demo_fs) (path text : string) : demo_fs * outcome unit :=
  ((path, text) :: fs, Returned tt).

Definition demo_read (fs : demo_fs) (path : string) : outcome string :=
  match multidict_get path fs with
  | Some text => Returned text
  | None => Raised (OSError path)
  end.

(** Renderers that leave a map and an elevation profile. *)
Definition demo_rendered (fs : demo_fs) (gpx : GPX) : demo_fs :=
  ("static/images/elevation_plot.png", "png") :: ("static/maps/map.html", "html") :: fs.

(** A parser that knows one text. *)
Definition demo_parse (text : string) : outcome GPX :=
  if String.eqb text "<gpx>climb</gpx>"
  then Returned climb_track
  else Raised GPXException.



Definition upload_request_without_file : Request :=
  {| method := "POST"; url := "http://localhost:5000/";
     form := [("file_option", "upload")];
     files := [] |}.

Definition absolute_upload_request : Request :=
  {| method := "POST"; url := "http://localhost:5000/";
     form := [("file_option", "upload")];
     files := [("gpxfile", {| filename := "/srv/app/app.py"; stream := "x" |})] |}.

Definition odd_request : Request :=
  {| method := "POST"; url := "http://localhost:5000/";
     form := [("file_option", "url")];
     files := [] |}.


Definition sample_store : demo_fs :=
  [("static/sample_gpx_files/climb.gpx", "<gpx>climb</gpx>")].

(** *** The specification's statements that the code does not satisfy *)

(** "If at least one point lacks a timestamp, the speed of every segment is
    undefined." *)
Definition any_missing_time_voids_all_speeds
  (geodesic : float * float -> float * float -> float) (gpx : GPX) : Prop :=
  (exists p, In p (collect gpx) /\ time p = None) ->
  forall df speed i,
    parse_gpx geodesic gpx = Ok df -> getitem df "speed" = Ok speed ->
    i < len df -> isnull_at speed i = Some true.

(** "The speed of a segment of zero duration is undefined." *)
Definition zero_duration_voids_speed
  (geodesic : float * float -> float * float -> float) (gpx : GPX) : Prop :=
  forall df speed i t,
    parse_gpx geodesic gpx = Ok df -> getitem df "speed" = Ok speed ->
    time_at (collect gpx) i = Some t -> time_at (collect gpx) (S i) = Some t ->
    isnull_at speed i = Some true.

(** "A speed that is defined is not negative." *)
Definition defined_speeds_nonnegative
  (geodesic : float * float -> float * float -> float) (gpx : GPX) : Prop :=
  forall df speed i s,
    parse_gpx geodesic gpx = Ok df -> getitem df "speed" = Ok (Float64 speed) ->
    nth_error speed i = Some s -> PrimFloat.is_nan s = false ->
    (0 <=? s)%float = true.

(** One step through a computation: case analysis on the next result. *)
Ltac step_result :=
  match goal with
  | |- context [match ?r with Ok _ => _ | Raise _ => _ end] => destruct r
  end.

(** * Properties *)

(** ** Binary64 facts *)

Lemma Prim2SF_zero : Prim2SF 0%float = S754_zero false.
Proof. reflexivity. Qed.

Lemma Prim2SF_nan : Prim2SF nan = S754_nan.
Proof. reflexivity. Qed.

Lemma is_nan_SF (x : float) :
  PrimFloat.is_nan x = match Prim2SF x with S754_nan => true | _ => false end.
Proof.
  unfold PrimFloat.is_nan. rewrite eqb_spec.
  destruct (Prim2SF x) as [s|s| |s m e]; unfold SFeqb, SFcompare; try reflexivity.
  - destruct s; reflexivity.
  - destruct s; rewrite Z.compare_refl, Pos.compare_cont_refl; reflexivity.
Qed.

(** A quotient by [NaN] is [NaN]. *)
Lemma div_nan_r (x : float) : (x / nan)%float = nan.
Proof.
  apply Prim2SF_inj. rewrite div_spec, Prim2SF_nan.
  destruct (Prim2SF x); reflexivity.
Qed.

(** A quotient by zero is an infinity or [NaN], never a finite number. *)
Lemma div_zero_pos (d : float) :
  (0 <? d)%float = true -> (d / 0)%float = infinity.
Proof.
  intros H. apply Prim2SF_inj. rewrite div_spec.
  rewrite ltb_spec, Prim2SF_zero in H. rewrite Prim2SF_zero.
  destruct (Prim2SF d) as [s|s| |s m e]; try discriminate;
    destruct s; try discriminate; reflexivity.
Qed.

Lemma div_zero_neg (d : float) :
  (d <? 0)%float = true -> (d / 0)%float = neg_infinity.
Proof.
  intros H. apply Prim2SF_inj. rewrite div_spec.
  rewrite ltb_spec, Prim2SF_zero in H. rewrite Prim2SF_zero.
  destruct (Prim2SF d) as [s|s| |s m e]; try discriminate;
    destruct s; try discriminate; reflexivity.
Qed.

Lemma div_zero_zero (d : float) :
  (d =? 0)%float = true -> (d / 0)%float = nan.
Proof.
  intros H. apply Prim2SF_inj. rewrite div_spec.
  rewrite eqb_spec, Prim2SF_zero in H. rewrite Prim2SF_zero.
  destruct (Prim2SF d) as [s|s| |s m e]; try discriminate;
    try (destruct s; discriminate); reflexivity.
Qed.

(** What the rounding step of an operation can return: a value of the sign
    it was given, or [NaN]. *)
Lemma binary_round_aux_sign (sx : bool) (mx ex : Z) (lx : location) :
  let r := binary_round_aux prec emax sx mx ex lx in
  r = S754_zero sx \/ r = S754_infinity sx \/ r = S754_nan
  \/ exists m e, r = S754_finite sx m e.
Proof.
  unfold binary_round_aux.
  destruct (shr_fexp prec emax mx ex lx) as [mrs' e'].
  destruct (shr_fexp prec emax _ e' loc_Exact) as [mrs'' e''].
  destruct (shr_m mrs'') as [|m|m]; auto.
  destruct (Z.leb e'' (emax - prec)); eauto 6.
Qed.

(** A non-negative distance over a positive duration is a non-negative
    speed, when it is a number at all. *)
Lemma div_nonneg (d t : float) :
  (0 <=? d)%float = true -> (0 <? t)%float = true ->
  PrimFloat.is_nan (d / t) = false -> (0 <=? d / t)%float = true.
Proof.
  rewrite is_nan_SF, !leb_spec, ltb_spec, div_spec, Prim2SF_zero.
  destruct (Prim2SF d) as [sd|sd| |sd md ed]; try discriminate;
    destruct (Prim2SF t) as [st|st| |st mt et]; try discriminate;
    try (destruct sd; try discriminate); try (destruct st; try discriminate);
    try reflexivity.
  intros _ _. unfold SF64div, SFdiv.
  destruct (SFdiv_core_binary prec emax (Z.pos md) ed (Z.pos mt) et) as [[mz ez] lz].
  destruct (binary_round_aux_sign (xorb false false) mz ez lz)
    as [-> | [-> | [-> | (m & e & ->)]]]; simpl; intros Hn;
    solve [reflexivity | discriminate Hn].
Qed.

(** The rounding step of an operation keeps a non-negative mantissa
    non-negative, so it returns a number. *)
Lemma shr_1_nonneg (mrs : shr_record) :
  (0 <= shr_m mrs)%Z -> (0 <= shr_m (shr_1 mrs))%Z.
Proof.
  destruct mrs as [m r s0]. cbn [shr_m]. intros Hm. unfold shr_1.
  destruct m as [|[p|p|]|p]; cbn [shr_m]; lia.
Qed.

Lemma iter_pos_invariant {A : Type} (P : A -> Prop) (f : A -> A) :
  (forall x, P x -> P (f x)) ->
  forall (n : positive) (x : A), P x -> P (iter_pos f n x).
Proof.
  intros Hf. induction n as [n IH|n IH|]; intros x Hx; cbn [iter_pos]; auto.
Qed.

Lemma shr_fexp_nonneg (m e : Z) (l : location) :
  (0 <= m)%Z -> (0 <= shr_m (fst (shr_fexp prec emax m e l)))%Z.
Proof.
  intros Hm. unfold shr_fexp, shr.
  assert (H0 : (0 <= shr_m (shr_record_of_loc m l))%Z)
    by (destruct l as [|[| |]]; exact Hm).
  destruct (fexp prec emax (Zdigits2 m + e) - e)%Z; cbn [fst]; try exact H0.
  now apply (iter_pos_invariant (fun r => (0 <= shr_m r)%Z) shr_1 shr_1_nonneg).
Qed.

Lemma round_nearest_even_nonneg (m : Z) (l : location) :
  (0 <= m)%Z -> (0 <= round_nearest_even m l)%Z.
Proof.
  intros Hm. unfold round_nearest_even.
  destruct l as [|[| |]]; try destruct (Z.even m); lia.
Qed.

Lemma binary_round_aux_nonneg (mx ex : Z) (lx : location) :
  (0 <= mx)%Z -> SF_nonneg (binary_round_aux prec emax false mx ex lx) = true.
Proof.
  intros Hm. unfold binary_round_aux.
  pose proof (shr_fexp_nonneg mx ex lx Hm) as H1.
  destruct (shr_fexp prec emax mx ex lx) as [mrs' e']. cbn [fst] in H1.
  pose proof (shr_fexp_nonneg _ e' loc_Exact
                (round_nearest_even_nonneg _ (loc_of_shr_record mrs') H1)) as H2.
  destruct (shr_fexp prec emax _ e' loc_Exact) as [mrs'' e'']. cbn [fst] in H2.
  destruct (shr_m mrs'') as [|m|m]; [reflexivity| |lia].
  destruct (Z.leb e'' (emax - prec)); reflexivity.
Qed.

Lemma SF_nonneg_leb (x : float) :
  SF_nonneg (Prim2SF x) = true -> (0 <=? x)%float = true.
Proof.
  rewrite leb_spec, Prim2SF_zero.
  destruct (Prim2SF x) as [[|]|[|]| |[|] m e]; try discriminate; reflexivity.
Qed.

Lemma add_nonneg (acc x : float) :
  SF_nonneg (Prim2SF acc) = true -> (0 <=? x)%float = true ->
  SF_nonneg (Prim2SF (acc + x)) = true.
Proof.
  intros Ha Hx. rewrite leb_spec, Prim2SF_zero in Hx. rewrite add_spec.
  destruct (Prim2SF acc) as [[|]|[|]| |[|] ma ea]; try discriminate Ha;
    destruct (Prim2SF x) as [[|]|[|]| |[|] mx ex]; try discriminate Hx;
    try reflexivity.
  unfold SF64add, SFadd, cond_Zopp, binary_normalize, binary_round.
  cbn [Z.add].
  destruct (shl_align _ _ _) as [mz ez].
  apply binary_round_aux_nonneg. lia.
Qed.

Lemma add_zero_r_nonneg (acc : float) :
  SF_nonneg (Prim2SF acc) = true -> (acc + 0)%float = acc.
Proof.
  intros H. apply Prim2SF_inj. rewrite add_spec, Prim2SF_zero.
  destruct (Prim2SF acc) as [[|]|[|]| |[|] ma ea]; try discriminate H;
    reflexivity.
Qed.

(** Adding a zero of either sign is adding 0. *)
Lemma add_any_zero (acc z : float) :
  SF_nonneg (Prim2SF acc) = true ->
  (0 <=? z)%float = true -> (0 <? z)%float = false ->
  (acc + z)%float = (acc + 0)%float.
Proof.
  intros Ha Hle Hlt. apply Prim2SF_inj. rewrite !add_spec, Prim2SF_zero.
  rewrite leb_spec, Prim2SF_zero in Hle. rewrite ltb_spec, Prim2SF_zero in Hlt.
  destruct (Prim2SF z) as [[|]|[|]| |[|] mz ez]; try discriminate;
    destruct (Prim2SF acc) as [[|]|[|]| |[|] ma ea]; try discriminate Ha;
    reflexivity.
Qed.

Lemma ltb_leb_zero (x : float) :
  (0 <? x)%float = true -> (0 <=? x)%float = true.
Proof.
  rewrite ltb_spec, leb_spec, Prim2SF_zero.
  destruct (Prim2SF x) as [[|]|[|]| |[|] m e]; try discriminate; reflexivity.
Qed.

Lemma is_nan_ltb_zero (x : float) :
  PrimFloat.is_nan x = true -> (0 <? x)%float = false.
Proof.
  rewrite is_nan_SF, ltb_spec, Prim2SF_zero.
  destruct (Prim2SF x) as [[|]|[|]| |[|] m e]; try discriminate; reflexivity.
Qed.

Lemma leb_zero_not_nan (x : float) :
  (0 <=? x)%float = true -> PrimFloat.is_nan x = false.
Proof.
  rewrite is_nan_SF, leb_spec, Prim2SF_zero.
  destruct (Prim2SF x) as [[|]|[|]| |[|] m e]; try discriminate; reflexivity.
Qed.

(** A non-negative distance over a negative duration is not a positive
    speed. *)
Lemma div_nonpos (d t : float) :
  (0 <=? d)%float = true -> (t <? 0)%float = true ->
  PrimFloat.is_nan (d / t) = false -> (d / t <=? 0)%float = true.
Proof.
  rewrite is_nan_SF, !leb_spec, ltb_spec, div_spec, Prim2SF_zero.
  destruct (Prim2SF d) as [sd|sd| |sd md ed]; try discriminate;
    destruct (Prim2SF t) as [st|st| |st mt et]; try discriminate;
    try (destruct sd; try discriminate); try (destruct st; try discriminate);
    try reflexivity.
  intros _ _. unfold SF64div, SFdiv.
  destruct (SFdiv_core_binary prec emax (Z.pos md) ed (Z.pos mt) et) as [[mz ez] lz].
  destruct (binary_round_aux_sign (xorb false true) mz ez lz)
    as [-> | [-> | [-> | (m & e & ->)]]]; simpl; intros Hn;
    solve [reflexivity | discriminate Hn].
Qed.

(** ** The sign of a difference *)

Lemma digits2_size (p : positive) : digits2_pos p = Pos.size p.
Proof. induction p; simpl; congruence. Qed.

Lemma digits2_upper (p : positive) : (Z.pos p < 2 ^ Z.pos (digits2_pos p))%Z.
Proof.
  rewrite digits2_size. pose proof (Pos.size_gt p) as H.
  apply Pos2Z.pos_lt_pos in H. now rewrite Pos2Z.inj_pow in H.
Qed.

Lemma digits2_lower (p : positive) : (2 ^ Z.pos (digits2_pos p) <= 2 * Z.pos p)%Z.
Proof.
  rewrite digits2_size. pose proof (Pos.size_le p) as H.
  apply Pos2Z.pos_le_pos in H. now rewrite Pos2Z.inj_pow in H.
Qed.

(** Of two canonical mantissas, the one with the larger exponent is the
    larger once both are aligned on the smaller exponent. *)
Lemma aligned_lt (m1 m2 : positive) (e1 e2 : Z) :
  bounded prec emax m1 e1 = true -> bounded prec emax m2 e2 = true ->
  (e1 < e2)%Z ->
  exists d, (e1 - e2 = Z.neg d)%Z /\ (Z.pos m1 < Z.pos (Pos.iter xO m2 d))%Z.
Proof.
  unfold bounded, canonical_mantissa, fexp. rewrite !andb_true_iff, !Z.eqb_eq.
  intros [H1 _] [H2 _] Hlt.
  destruct (e1 - e2)%Z as [|d|d] eqn:Hd; try lia.
  exists d. split; [reflexivity|].
  fold (shift_pos d m2). rewrite shift_pos_correct, Z.pow_pos_fold.
  pose proof (digits2_upper m1) as U1. pose proof (digits2_lower m2) as L2.
  unfold prec, emax, SpecFloat.emin in *.
  assert (D2 : Z.pos (digits2_pos m2) = 53%Z) by lia.
  assert (D1 : (Z.pos (digits2_pos m1) <= 53)%Z) by lia.
  rewrite D2 in L2.
  assert (P1 : (2 ^ Z.pos (digits2_pos m1) <= 2 ^ 53)%Z)
    by (apply Z.pow_le_mono_r; lia).
  assert (Pd : (2 ^ 1 <= 2 ^ Z.pos d)%Z) by (apply Z.pow_le_mono_r; lia).
  change (2 ^ 1)%Z with 2%Z in Pd. nia.
Qed.

Lemma shl_align_same (m : positive) (e : Z) : shl_align m e e = (m, e).
Proof. unfold shl_align. now rewrite Z.sub_diag. Qed.

(** The difference of a number and one that is not smaller is not
    positive. *)
Lemma sub_le_not_pos (b a : float) :
  (b <=? a)%float = true -> (0 <? b - a)%float = false.
Proof.
  rewrite leb_spec, ltb_spec, sub_spec, Prim2SF_zero.
  pose proof (Prim2SF_valid b) as Vb. pose proof (Prim2SF_valid a) as Va.
  destruct (Prim2SF b) as [[|]|[|]| |sb mb eb];
    destruct (Prim2SF a) as [[|]|[|]| |sa ma ea];
    try discriminate; try reflexivity;
    try (destruct sb; try discriminate; reflexivity);
    try (destruct sa; try discriminate; reflexivity).
  cbn [valid_binary] in Va, Vb.
  intros Hle.
  assert (Hsign : forall D : Z, (D <= 0)%Z ->
            SFltb (S754_zero false)
                  (binary_normalize prec emax D (Z.min eb ea) false) = false).
  { intros [|p|p] HD; [reflexivity|lia|].
    unfold binary_normalize, binary_round.
    destruct (shl_align _ _ _) as [mz ez].
    destruct (binary_round_aux_sign true (Z.pos mz) ez loc_Exact)
      as [-> | [-> | [-> | (m & e & ->)]]]; reflexivity. }
  unfold SF64sub, SFsub. apply Hsign. clear Hsign.
  unfold SFleb, SFcompare in Hle.
  destruct sb, sa; try discriminate Hle; cbn [cond_Zopp].
  - (* both negative *)
    destruct (Z.compare_spec eb ea) as [Heq|Hlt|Hgt]; try discriminate Hle.
    + subst. rewrite Z.min_id, !shl_align_same. cbn [fst].
      destruct (Pos.compare_cont Eq mb ma) eqn:Hc; try discriminate Hle;
        change (Pos.compare_cont Eq mb ma) with (Pos.compare mb ma) in Hc.
      * apply Pos.compare_eq in Hc. subst. lia.
      * apply Pos.compare_gt_iff in Hc. lia.
    + destruct (aligned_lt ma mb ea eb Va Vb) as (d & Hd & Hm); [lia|].
      rewrite Z.min_r by lia. rewrite shl_align_same. unfold shl_align. rewrite Hd.
      cbn [fst]. lia.
  - lia.
  - (* both positive *)
    destruct (Z.compare_spec eb ea) as [Heq|Hlt|Hgt]; try discriminate Hle.
    + subst. rewrite Z.min_id, !shl_align_same. cbn [fst].
      destruct (Pos.compare_cont Eq mb ma) eqn:Hc; try discriminate Hle;
        change (Pos.compare_cont Eq mb ma) with (Pos.compare mb ma) in Hc.
      * apply Pos.compare_eq in Hc. subst. lia.
      * change (mb < ma)%positive in Hc. lia.
    + destruct (aligned_lt mb ma eb ea Vb Va) as (d & Hd & Hm); [lia|].
      rewrite Z.min_l by lia. rewrite shl_align_same. unfold shl_align. rewrite Hd.
      cbn [fst]. lia.
Qed.

Lemma max0_sub_le (b a : float) :
  (b <=? a)%float = true -> max0 (b - a) = 0%float.
Proof. intros H. unfold max0. now rewrite (sub_le_not_pos b a H). Qed.

(** ** Lists by position *)

Lemma nth_error_zip_with {A B C : Type} (f : A -> B -> C) (xs : list A) (ys : list B) (i : nat) :
  nth_error (zip_with f xs ys) i =
  match nth_error xs i, nth_error ys i with
  | Some x, Some y => Some (f x y)
  | _, _ => None
  end.
Proof.
  revert ys i. induction xs as [|x xt IH]; intros [|y yt] [|i]; simpl; auto.
  - destruct (nth_error xt i); reflexivity.
Qed.

Lemma length_zip_with {A B C : Type} (f : A -> B -> C) (xs : list A) (ys : list B) :
  List.length (zip_with f xs ys) = Nat.min (List.length xs) (List.length ys).
Proof.
  revert ys. induction xs as [|x xt IH]; intros [|y yt]; simpl; auto.
Qed.

Lemma nth_error_shift_up {A : Type} (fill : A) (xs : list A) (i : nat) :
  nth_error (shift_up fill xs) i =
  match nth_error xs (S i) with
  | Some y => Some y
  | None => option_map (fun _ => fill) (nth_error xs i)
  end.
Proof.
  destruct xs as [|x tl]; [destruct i; reflexivity|].
  unfold shift_up. cbn [nth_error].
  revert x i. induction tl as [|y tl IH]; intros x i.
  - destruct i as [|[|i]]; reflexivity.
  - destruct i as [|i]; [reflexivity|]. cbn [app nth_error]. apply IH.
Qed.

Lemma length_shift_up {A : Type} (fill : A) (xs : list A) :
  List.length (shift_up fill xs) = List.length xs.
Proof.
  destruct xs; simpl; [reflexivity|]. rewrite length_app. simpl. lia.
Qed.

Lemma nth_error_rows_of (a b c d : list float) (i : nat) :
  nth_error (rows_of a b c d) i =
  match nth_error a i, nth_error b i, nth_error c i, nth_error d i with
  | Some x, Some y, Some z, Some w =>
      Some {| row_latitude := x; row_longitude := y;
              row_shifted_latitude := z; row_shifted_longitude := w |}
  | _, _, _, _ => None
  end.
Proof.
  revert b c d i.
  induction a as [|x a IH]; intros [|y b] [|z c] [|w d] [|i]; simpl; auto;
    repeat match goal with
           | |- context [match nth_error ?l ?k with _ => _ end] =>
               destruct (nth_error l k)
           end; reflexivity.
Qed.

Lemma length_rows_of (a b c d : list float) :
  List.length a = List.length b -> List.length a = List.length c ->
  List.length a = List.length d ->
  List.length (rows_of a b c d) = List.length a.
Proof.
  revert b c d.
  induction a as [|x a IH]; intros [|y b] [|z c] [|w d]; simpl; auto; lia.
Qed.

(** ** Sums that skip [NaN] *)

Lemma fold_nansum_nonneg (xs : list float) (acc : float) :
  SF_nonneg (Prim2SF acc) = true ->
  Forall nan_or_nonneg xs ->
  SF_nonneg (Prim2SF (fold_left nansum_step xs acc)) = true.
Proof.
  revert acc. induction xs as [|x xs IH]; intros acc Hacc Hxs; [exact Hacc|].
  inversion Hxs as [|? ? Hx Hrest]; subst. cbn [fold_left]. apply IH; [|exact Hrest].
  unfold nansum_step. destruct (PrimFloat.is_nan x) eqn:Hn; [exact Hacc|].
  destruct Hx as [Hx|Hx]; [congruence|]. now apply add_nonneg.
Qed.

(** A sum of cells that are missing or not negative is not negative. *)
Lemma nansum_nonneg (xs : list float) :
  Forall nan_or_nonneg xs -> (0 <=? nansum xs)%float = true.
Proof.
  intros Hxs. apply SF_nonneg_leb. now apply fold_nansum_nonneg.
Qed.

(** A trailing zero adds nothing to a sum of non-negative cells. *)
Lemma nansum_snoc_zero (xs : list float) :
  Forall (fun x => (0 <=? x)%float = true) xs ->
  nansum (xs ++ [0%float]) = nansum xs.
Proof.
  intros Hxs. unfold nansum. rewrite fold_left_app. cbn [fold_left].
  unfold nansum_step at 1. change (PrimFloat.is_nan 0) with false. cbv iota.
  apply add_zero_r_nonneg. apply fold_nansum_nonneg; [reflexivity|].
  eapply Forall_impl; [|exact Hxs]. intros x Hx. now right.
Qed.

(** A clipped cell is missing or not negative. *)
Lemma clip_lower0_nan_or_nonneg (x : float) : nan_or_nonneg (clip_lower0 x).
Proof.
  unfold clip_lower0, nan_or_nonneg.
  destruct (PrimFloat.is_nan x) eqn:Hn; cbn [orb]; [now left|].
  destruct (0 <=? x)%float eqn:Hle; [now right|]. right. reflexivity.
Qed.

(** One step of the clipped sum is one step of the formula. *)
Lemma nansum_step_clip (acc d : float) :
  SF_nonneg (Prim2SF acc) = true ->
  nansum_step acc (clip_lower0 d) = (acc + max0 d)%float
  /\ SF_nonneg (Prim2SF (acc + max0 d)) = true.
Proof.
  intros Hacc. unfold clip_lower0, max0, nansum_step.
  destruct (PrimFloat.is_nan d) eqn:Hn; cbn [orb].
  - rewrite Hn, (is_nan_ltb_zero d Hn), (add_zero_r_nonneg acc Hacc). auto.
  - destruct (0 <=? d)%float eqn:Hle.
    + rewrite Hn. destruct (0 <? d)%float eqn:Hlt.
      * split; [reflexivity|now apply add_nonneg].
      * rewrite (add_any_zero acc d Hacc Hle Hlt), (add_zero_r_nonneg acc Hacc). auto.
    + change (PrimFloat.is_nan 0) with false. cbv iota.
      destruct (0 <? d)%float eqn:Hlt.
      * apply ltb_leb_zero in Hlt. congruence.
      * rewrite (add_zero_r_nonneg acc Hacc). auto.
Qed.

Lemma fold_clip_formula (ds : list float) (acc : float) :
  SF_nonneg (Prim2SF acc) = true ->
  fold_left nansum_step (map clip_lower0 ds) acc
  = fold_left PrimFloat.add (map max0 ds) acc.
Proof.
  revert acc. induction ds as [|d ds IH]; intros acc Hacc; [reflexivity|].
  cbn [map fold_left].
  destruct (nansum_step_clip acc d Hacc) as [-> Hnext]. now apply IH.
Qed.

Lemma zip_with_map {A B C D : Type} (g : C -> D) (f : A -> B -> C)
  (xs : list A) (ys : list B) :
  zip_with (fun x y => g (f x y)) xs ys = map g (zip_with f xs ys).
Proof.
  revert ys. induction xs as [|x xs IH]; intros [|y ys]; cbn; auto.
  now rewrite IH.
Qed.

(** On a numeric column, [diff], [clip] and [sum] compute the formula of the
    specification. *)
Lemma clipped_diff_sum_formula (es : list float) :
  nansum (map clip_lower0 (diff_cells PrimFloat.sub nan es)) = elevation_gain_formula es.
Proof.
  unfold elevation_gain_formula.
  destruct es as [|e rest]; [reflexivity|].
  cbn [diff_cells map List.tl].
  unfold nansum. cbn [fold_left]. unfold nansum_step at 2.
  change (PrimFloat.is_nan (clip_lower0 nan)) with true. cbv iota.
  rewrite (zip_with_map max0 PrimFloat.sub). now apply fold_clip_formula.
Qed.

(** The formula is 0 on a sequence that never rises. *)
Lemma elevation_gain_formula_non_increasing (es : list float) :
  non_increasing es -> elevation_gain_formula es = 0%float.
Proof.
  unfold elevation_gain_formula.
  induction es as [|a [|b rest] IH]; intros Hmono; try reflexivity.
  cbn [List.tl zip_with fold_left].
  rewrite (max0_sub_le b a (Hmono 0 a b eq_refl eq_refl)).
  change (0 + 0)%float with 0%float. apply IH.
  intros i x y Hx Hy. exact (Hmono (S i) x y Hx Hy).
Qed.

Lemma Forall_clip_lower0 (xs : list float) :
  Forall nan_or_nonneg (map clip_lower0 xs).
Proof.
  induction xs; constructor; auto using clip_lower0_nan_or_nonneg.
Qed.

(** ... and the sum is not negative. *)
Lemma clipped_diff_sum_nonneg (es : list float) :
  (0 <=? elevation_gain_formula es)%float = true.
Proof.
  rewrite <- clipped_diff_sum_formula. apply nansum_nonneg, Forall_clip_lower0.
Qed.

Lemma collect_eta (gpx : GPX) :
  collect gpx =
  flat_map (fun track => flat_map (fun segment => points segment) (segments track))
           (tracks gpx).
Proof.
  unfold collect.
  induction (tracks gpx) as [|track rest IH]; simpl; [reflexivity|].
  rewrite IH. f_equal.
  induction (segments track) as [|segment more IHs]; simpl; [reflexivity|].
  rewrite IHs. f_equal.
  induction (points segment) as [|[la lo e t] ps IHp]; simpl; [reflexivity|].
  now rewrite IHp.
Qed.

Lemma forallb_obj_isnull_Nones {A : Type} (vs : list A) :
  forallb obj_isnull (map (fun _ => ONone) vs) = true.
Proof. induction vs; simpl; auto. Qed.

Lemma forallb_obj_isnull_repeat (n : nat) :
  forallb obj_isnull (repeat ONone n) = true.
Proof. induction n; simpl; auto. Qed.

Section PipelineFacts.

Variable geodesic : float * float -> float * float -> float.

(** On a document with at least one point [parse_gpx] returns, and the
    frame is [built]. *)
Lemma parse_gpx_nonempty (gpx : GPX) :
  collect gpx <> [] ->
  parse_gpx geodesic gpx = Ok (built geodesic (collect gpx)).
Proof.
  intros Hne. unfold parse_gpx, built, timeless.
  destruct (collect gpx) as [|p ps] eqn:E; [congruence|]. clear Hne E.
  unfold DataFrame_of_records, datetime_column. cbv beta iota.
  remember (p :: ps) as data eqn:Hdata. clear Hdata.
  destruct (forallb is_None (map time data)) eqn:Ht.
  - cbn. rewrite forallb_obj_isnull_Nones. cbn.
    rewrite forallb_obj_isnull_repeat. reflexivity.
  - cbn. rewrite Ht. cbn. rewrite Ht. reflexivity.
Qed.

(** The frame of a document with a point has the column [elevation], so the
    zero default of [parse_gpx] is taken on the empty frame only. *)
Lemma elevation_column_present (data : list GPXTrackPoint) :
  contains (DataFrame_of_records data) "elevation" = negb (Nat.eqb (List.length data) 0).
Proof. destruct data; reflexivity. Qed.

(** On a document without points the first column lookup fails. *)
Lemma parse_gpx_empty (gpx : GPX) :
  collect gpx = [] ->
  parse_gpx geodesic gpx = Raise (KeyError "latitude").
Proof.
  intros E. unfold parse_gpx. rewrite E. reflexivity.
Qed.

(** A frame [parse_gpx] returns is the frame [built] of a document with a
    point. *)
Lemma parse_gpx_Ok_built (gpx : GPX) (df : DataFrame) :
  parse_gpx geodesic gpx = Ok df ->
  collect gpx <> [] /\ df = built geodesic (collect gpx).
Proof.
  intros H.
  assert (Hne : collect gpx <> []).
  { intros E. rewrite (parse_gpx_empty gpx E) in H. discriminate. }
  rewrite (parse_gpx_nonempty gpx Hne) in H. injection H as <-. auto.
Qed.

(** *** The cells of the derived columns, by position *)

Lemma apply_rows_next (p q : GPXTrackPoint) (ps : list GPXTrackPoint) :
  apply_rows (p :: q :: ps) =
  {| row_latitude := latitude p; row_longitude := longitude p;
     row_shifted_latitude := latitude q; row_shifted_longitude := longitude q |}
  :: apply_rows (q :: ps).
Proof. reflexivity. Qed.

Lemma apply_rows_last (p : GPXTrackPoint) :
  apply_rows [p] =
  [ {| row_latitude := latitude p; row_longitude := longitude p;
       row_shifted_latitude := nan; row_shifted_longitude := nan |} ].
Proof. reflexivity. Qed.

Lemma length_apply_rows (data : list GPXTrackPoint) :
  List.length (apply_rows data) = List.length data.
Proof.
  unfold apply_rows.
  rewrite length_rows_of; rewrite ?length_shift_up, ?length_map; reflexivity.
Qed.

Lemma length_distance_cells (data : list GPXTrackPoint) :
  List.length (distance_cells geodesic data) = List.length data.
Proof. unfold distance_cells. now rewrite length_map, length_apply_rows. Qed.

Lemma length_time_diff_cells (data : list GPXTrackPoint) :
  List.length (time_diff_cells data) = List.length data.
Proof.
  unfold time_diff_cells.
  rewrite length_map, length_zip_with, length_shift_up, length_map. lia.
Qed.

Lemma nth_error_apply_rows (data : list GPXTrackPoint) (i : nat) (p : GPXTrackPoint) :
  nth_error data i = Some p ->
  nth_error (apply_rows data) i =
  Some {| row_latitude := latitude p; row_longitude := longitude p;
          row_shifted_latitude :=
            match nth_error data (S i) with Some q => latitude q | None => nan end;
          row_shifted_longitude :=
            match nth_error data (S i) with Some q => longitude q | None => nan end |}.
Proof.
  intros Hp. unfold apply_rows.
  rewrite nth_error_rows_of, !nth_error_shift_up, !nth_error_map, Hp.
  destruct (nth_error data (S i)); reflexivity.
Qed.

(** A row with a successor: the geodesic distance to it. *)
Lemma distance_cell_next (data : list GPXTrackPoint) (i : nat) (p q : GPXTrackPoint) :
  nth_error data i = Some p -> nth_error data (S i) = Some q ->
  notnan (latitude q) = true -> notnan (longitude q) = true ->
  nth_error (distance_cells geodesic data) i =
  Some (geodesic (latitude p, longitude p) (latitude q, longitude q)).
Proof.
  intros Hp Hq Hla Hlo. unfold distance_cells.
  rewrite nth_error_map, (nth_error_apply_rows data i p Hp), Hq.
  unfold calculate_distance, has_successor. cbn. now rewrite Hla, Hlo.
Qed.

(** The row without a successor: 0. *)
Lemma distance_cell_last (data : list GPXTrackPoint) (i : nat) (p : GPXTrackPoint) :
  nth_error data i = Some p -> nth_error data (S i) = None ->
  nth_error (distance_cells geodesic data) i = Some 0%float.
Proof.
  intros Hp Hq. unfold distance_cells.
  now rewrite nth_error_map, (nth_error_apply_rows data i p Hp), Hq.
Qed.

Lemma time_diff_cell (data : list GPXTrackPoint) (i : nat) (p : GPXTrackPoint) :
  nth_error data i = Some p ->
  nth_error (time_diff_cells data) i =
  Some (seconds_or_nan
          (NaT_sub (match nth_error data (S i) with Some q => time q | None => None end)
                   (time p))).
Proof.
  intros Hp. unfold time_diff_cells.
  rewrite nth_error_map, nth_error_zip_with, nth_error_shift_up, !nth_error_map, Hp.
  destruct (nth_error data (S i)); reflexivity.
Qed.

Lemma speed_cell (data : list GPXTrackPoint) (i : nat) (d t : float) :
  nth_error (distance_cells geodesic data) i = Some d ->
  nth_error (time_diff_cells data) i = Some t ->
  nth_error (speed_cells geodesic data) i = Some (d / t)%float.
Proof.
  intros Hd Ht. unfold speed_cells. now rewrite nth_error_zip_with, Hd, Ht.
Qed.

Lemma distance_cells_next (p q : GPXTrackPoint) (ps : list GPXTrackPoint) :
  distance_cells geodesic (p :: q :: ps) =
  calculate_distance geodesic
    {| row_latitude := latitude p; row_longitude := longitude p;
       row_shifted_latitude := latitude q; row_shifted_longitude := longitude q |}
  :: distance_cells geodesic (q :: ps).
Proof. reflexivity. Qed.

(** The distance column ends in the 0 of the last row. *)
Lemma distance_cells_snoc (data : list GPXTrackPoint) :
  data <> [] ->
  exists ds, distance_cells geodesic data = ds ++ [0%float]
             /\ List.length ds = List.length data - 1.
Proof.
  induction data as [|p [|q ps] IH]; intros Hne.
  - congruence.
  - exists []. split; reflexivity.
  - destruct IH as (ds & Hds & Hlen); [discriminate|].
    rewrite distance_cells_next, Hds.
    eexists (_ :: ds). split; [reflexivity|]. simpl in *. lia.
Qed.

(** Every point but the last has a successor row. *)
Lemma count_has_successor (data : list GPXTrackPoint) :
  Forall (fun p => notnan (latitude p) = true /\ notnan (longitude p) = true) data ->
  List.length (filter has_successor (apply_rows data)) = List.length data - 1.
Proof.
  induction data as [|p [|q ps] IH]; intros Hv.
  - reflexivity.
  - reflexivity.
  - rewrite apply_rows_next. cbn [filter].
    inversion Hv as [|? ? _ Hv']; subst.
    inversion Hv' as [|? ? [Hla Hlo] _]; subst.
    unfold has_successor at 1. cbn [row_shifted_latitude row_shifted_longitude].
    rewrite Hla, Hlo. cbn [andb List.length]. rewrite (IH Hv'). simpl. lia.
Qed.

Section NonNegativeGeodesic.

(** geopy returns a length. *)
Hypothesis geodesic_nonneg : forall a b, (0 <=? geodesic a b)%float = true.

Lemma calculate_distance_nonneg (row : Row) :
  (0 <=? calculate_distance geodesic row)%float = true.
Proof.
  unfold calculate_distance. destruct (has_successor row); [apply geodesic_nonneg|reflexivity].
Qed.

Lemma distance_cells_nonneg (data : list GPXTrackPoint) :
  Forall (fun d => (0 <=? d)%float = true) (distance_cells geodesic data).
Proof.
  unfold distance_cells. apply Forall_map, Forall_forall.
  intros row _. apply calculate_distance_nonneg.
Qed.

End NonNegativeGeodesic.

End PipelineFacts.

Lemma timeless_true (data : list GPXTrackPoint) :
  timeless data = true <-> (forall p, In p data -> time p = None).
Proof.
  unfold timeless. rewrite forallb_forall. split.
  - intros H p Hp. specialize (H (time p) (in_map time _ _ Hp)).
    destruct (time p); [discriminate|reflexivity].
  - intros H t Ht. apply in_map_iff in Ht as (p & <- & Hp). now rewrite (H p Hp).
Qed.

Lemma timeless_false (data : list GPXTrackPoint) :
  (exists p, In p data /\ time p <> None) -> timeless data = false.
Proof.
  intros (p & Hp & Ht). destruct (timeless data) eqn:E; [|reflexivity].
  rewrite timeless_true in E. now apply E in Hp.
Qed.

Lemma time_at_Some (data : list GPXTrackPoint) (i : nat) (t : Z) :
  time_at data i = Some t ->
  exists p, nth_error data i = Some p /\ time p = Some t.
Proof.
  unfold time_at. destruct (nth_error data i) as [p|]; [eauto|discriminate].
Qed.

Lemma float_column_all_None (data : list GPXTrackPoint) :
  (forall p, In p data -> elevation p = None) ->
  float_column (map elevation data) = Object (map (fun _ => ONone) (map elevation data)).
Proof.
  intros H. unfold float_column.
  replace (forallb is_None (map elevation data)) with true; [reflexivity|].
  symmetry. apply forallb_forall. intros e He.
  apply in_map_iff in He as (p & <- & Hp). now rewrite (H p Hp).
Qed.

Lemma float_column_some (data : list GPXTrackPoint) :
  (exists p, In p data /\ elevation p <> None) ->
  float_column (map elevation data) =
  Float64 (map (fun v => match v with Some x => x | None => nan end) (map elevation data)).
Proof.
  intros (p & Hp & He). unfold float_column.
  destruct (forallb is_None (map elevation data)) eqn:E; [|reflexivity].
  rewrite forallb_forall in E. specialize (E _ (in_map elevation _ _ Hp)).
  destruct (elevation p); [discriminate|congruence].
Qed.

Lemma nanmean_Nones (n : nat) : nanmean (map obj_value (repeat ONone n)) = nan.
Proof.
  unfold nanmean, nancount.
  replace (filter notnan (map obj_value (repeat ONone n))) with (@nil float);
    [reflexivity|].
  induction n; simpl; auto.
Qed.

Lemma all_segments_collect (gpx : GPX) :
  collect gpx = flat_map points (all_segments gpx).
Proof.
  rewrite collect_eta. unfold all_segments.
  induction (tracks gpx) as [|track rest IH]; simpl; [reflexivity|].
  now rewrite flat_map_app, IH.
Qed.

Lemma nth_error_middle {A : Type} (pre post : list A) (x : A) :
  nth_error (pre ++ x :: post) (List.length pre) = Some x.
Proof. induction pre; simpl; auto. Qed.

Lemma nth_error_middle_next {A : Type} (pre post : list A) (x y : A) :
  nth_error (pre ++ x :: y :: post) (S (List.length pre)) = Some y.
Proof. induction pre; simpl; auto. Qed.

(** The point sequence around the boundary of two adjacent segments. *)
Lemma collect_boundary (gpx : GPX) (before after : list GPXTrackSegment)
  (s1 s2 : GPXTrackSegment) (a b : list GPXTrackPoint) (p q : GPXTrackPoint) :
  all_segments gpx = before ++ s1 :: s2 :: after ->
  points s1 = a ++ [p] -> points s2 = q :: b ->
  collect gpx =
  (flat_map points before ++ a) ++ p :: q :: (b ++ flat_map points after).
Proof.
  intros Hs H1 H2. rewrite all_segments_collect, Hs, flat_map_app.
  cbn [flat_map]. rewrite H1, H2, <- !app_assoc. reflexivity.
Qed.

Lemma getitem_built_distance
  (geodesic : float * float -> float * float -> float) (data : list GPXTrackPoint) :
  getitem (built geodesic data) "distance" = Ok (Float64 (distance_cells geodesic data)).
Proof. reflexivity. Qed.

Lemma getitem_built_speed_aware
  (geodesic : float * float -> float * float -> float) (data : list GPXTrackPoint) :
  timeless data = false ->
  getitem (built geodesic data) "speed" = Ok (Float64 (speed_cells geodesic data))
  /\ getitem (built geodesic data) "time_diff" = Ok (Float64 (time_diff_cells data)).
Proof. intros H. unfold built, getitem. cbn. now rewrite H. Qed.

Lemma getitem_built_speed_timeless
  (geodesic : float * float -> float * float -> float) (data : list GPXTrackPoint) :
  timeless data = true ->
  getitem (built geodesic data) "speed" = Ok (Series_of_Nones (List.length data)).
Proof. intros H. unfold built, getitem. cbn. now rewrite H. Qed.

(** On a track of which some point has an elevation the column is numeric
    and the summary returns: the elevation gain is the rounding of the
    specification's formula over the cells, and the formula is not
    negative. *)
Lemma elevation_gain_on_numeric_column
  (geodesic : float * float -> float * float -> float) (round2 : float -> float)
  (gpx : GPX) :
  (exists p, In p (collect gpx) /\ elevation p <> None) ->
  exists df es distance speed,
    parse_gpx geodesic gpx = Ok df /\
    getitem df "elevation" = Ok (Float64 es) /\
    calculate_features round2 df
    = Ok (distance, speed, round2 (elevation_gain_formula es)) /\
    (0 <=? elevation_gain_formula es)%float = true /\
    (non_increasing es -> elevation_gain_formula es = 0%float).
Proof.
  intros Hsome.
  assert (Hne : collect gpx <> []).
  { destruct Hsome as (p & Hp & _). intros E. rewrite E in Hp. exact Hp. }
  rewrite (parse_gpx_nonempty geodesic gpx Hne).
  pose proof (float_column_some _ Hsome) as Hcol.
  set (es := map (fun v => match v with Some x => x | None => nan end)
                 (map elevation (collect gpx))) in *.
  exists (built geodesic (collect gpx)), es.
  assert (Hget : getitem (built geodesic (collect gpx)) "elevation" = Ok (Float64 es))
    by (unfold built, getitem; cbn; now rewrite Hcol).
  unfold calculate_features.
  destruct (timeless (collect gpx)) eqn:Ht.
  - rewrite getitem_built_distance, (getitem_built_speed_timeless geodesic _ Ht), Hget.
    cbn [bind Series_sum Series_mean Series_of_Nones Series_diff Series_clip_lower0].
    rewrite clipped_diff_sum_formula.
    do 2 eexists. do 3 (split; [reflexivity|]).
    split; [apply clipped_diff_sum_nonneg|apply elevation_gain_formula_non_increasing].
  - destruct (getitem_built_speed_aware geodesic _ Ht) as [Hsp _].
    rewrite getitem_built_distance, Hsp, Hget.
    cbn [bind Series_sum Series_mean Series_diff Series_clip_lower0].
    rewrite clipped_diff_sum_formula.
    do 2 eexists. do 3 (split; [reflexivity|]).
    split; [apply clipped_diff_sum_nonneg|apply elevation_gain_formula_non_increasing].
Qed.

Section Claims.

Variable geodesic : float * float -> float * float -> float.
Variable round2 : float -> float.

(** C1 (as the code has it).  In every frame [parse_gpx] returns, the
    decision is taken over the whole track, but on "no point has a
    timestamp": then the speed column is [None] in every row.  As soon as
    one point has a timestamp the track is time-aware, also when other
    points lack theirs: the speed of a row is its distance over the seconds
    to its successor when both timestamps are present, and [NaN] when one of
    them is missing. *)
Theorem time_awareness_by_all_missing (gpx : GPX) (df : DataFrame) :
  parse_gpx geodesic gpx = Ok df ->
  exists dist,
    len df = List.length (collect gpx) /\
    getitem df "distance" = Ok (Float64 dist) /\
    ((forall p, In p (collect gpx) -> time p = None) ->
     getitem df "speed" = Ok (Series_of_Nones (len df))) /\
    ((exists p, In p (collect gpx) /\ time p <> None) ->
     exists speed,
       getitem df "speed" = Ok (Float64 speed) /\
       forall i p, nth_error (collect gpx) i = Some p ->
         exists d,
           nth_error dist i = Some d /\
           nth_error speed i =
           Some match time p, time_at (collect gpx) (S i) with
                | Some a, Some b => (d / total_seconds (b - a))%float
                | _, _ => nan
                end).
Proof.
  intros Hparse. destruct (parse_gpx_Ok_built geodesic gpx df Hparse) as [_ ->].
  set (data := collect gpx).
  exists (distance_cells geodesic data).
  split; [reflexivity|]. split; [reflexivity|]. split.
  - intros Hall. apply timeless_true in Hall.
    unfold built, getitem. cbn. now rewrite Hall.
  - intros Hsome. apply timeless_false in Hsome.
    exists (speed_cells geodesic data). split.
    + unfold built, getitem. cbn. now rewrite Hsome.
    + intros i p Hp.
      assert (Hlen : i < List.length (distance_cells geodesic data)).
      { rewrite length_distance_cells. apply nth_error_Some. congruence. }
      apply nth_error_Some in Hlen.
      destruct (nth_error (distance_cells geodesic data) i) as [d|] eqn:Hd;
        [|congruence].
      exists d. split; [reflexivity|].
      rewrite (speed_cell geodesic data i d _ Hd (time_diff_cell data i p Hp)).
      f_equal. unfold time_at.
      destruct (time p) as [a|];
        destruct (nth_error data (S i)) as [q|]; cbn;
        try destruct (time q) as [b|]; cbn;
        try reflexivity; apply div_nan_r.
Qed.

(** C2 (as the code has it).  In every frame [parse_gpx] returns, nothing
    is marked between two points with the same timestamp: the duration cell
    is 0 and the speed cell is the binary64 quotient of the distance by 0,
    which is [+Infinity] for a positive distance and [NaN] for a distance of
    0. *)
Theorem zero_duration_divides_by_zero (gpx : GPX) (df : DataFrame) (i : nat) (t : Z) :
  parse_gpx geodesic gpx = Ok df ->
  time_at (collect gpx) i = Some t ->
  time_at (collect gpx) (S i) = Some t ->
  exists dist time_diff speed d,
    getitem df "distance" = Ok (Float64 dist) /\
    getitem df "time_diff" = Ok (Float64 time_diff) /\
    getitem df "speed" = Ok (Float64 speed) /\
    nth_error dist i = Some d /\
    nth_error time_diff i = Some 0%float /\
    nth_error speed i = Some (d / 0)%float /\
    ((0 <? d)%float = true -> (d / 0)%float = infinity) /\
    ((d =? 0)%float = true -> (d / 0)%float = nan).
Proof.
  intros Hparse Hp Hq.
  destruct (parse_gpx_Ok_built geodesic gpx df Hparse) as [_ ->].
  destruct (time_at_Some _ _ _ Hp) as (p & Hip & Htp).
  destruct (time_at_Some _ _ _ Hq) as (q & Hiq & Htq).
  set (data := collect gpx) in *.
  assert (Haware : timeless data = false).
  { apply timeless_false. exists p. split; [eapply nth_error_In; eauto|congruence]. }
  assert (Hlen : i < List.length (distance_cells geodesic data)).
  { rewrite length_distance_cells. apply nth_error_Some. congruence. }
  apply nth_error_Some in Hlen.
  destruct (nth_error (distance_cells geodesic data) i) as [d|] eqn:Hd; [|congruence].
  assert (Htd : nth_error (time_diff_cells data) i = Some 0%float).
  { rewrite (time_diff_cell data i p Hip), Hiq, Htp, Htq. cbn.
    rewrite Z.sub_diag. reflexivity. }
  exists (distance_cells geodesic data),
         (time_diff_cells data), (speed_cells geodesic data), d.
  split; [reflexivity|].
  split; [unfold built, getitem; cbn; now rewrite Haware|].
  split; [unfold built, getitem; cbn; now rewrite Haware|].
  split; [exact Hd|]. split; [exact Htd|].
  split; [exact (speed_cell geodesic data i d _ Hd Htd)|].
  split; [apply div_zero_pos|apply div_zero_zero].
Qed.

(** C3 (as the code has it).  On a document without points [parse_gpx]
    does not succeed: it fails with the [KeyError] of the first column
    lookup on the empty frame. *)
Theorem empty_track_raises_KeyError (gpx : GPX) :
  collect gpx = [] -> parse_gpx geodesic gpx = Raise (KeyError "latitude").
Proof.
  apply parse_gpx_empty.
Qed.

(** C4 (the code at its failing inputs).  On a track of two or more points
    of which none has an elevation, the elevation column is a column of
    [None]s and the difference of its first two cells raises: the elevation
    gain is not computed, and neither are the two statistics before it
    returned. *)
Theorem elevation_gain_raises_without_elevations
  (gpx : GPX) (p q : GPXTrackPoint) (rest : list GPXTrackPoint) :
  collect gpx = p :: q :: rest ->
  (forall r, In r (collect gpx) -> elevation r = None) ->
  exists df,
    parse_gpx geodesic gpx = Ok df /\
    getitem df "elevation" = Ok (Object (map (fun _ => ONone) (collect gpx))) /\
    Series_diff (Object (map (fun _ => ONone) (collect gpx))) = Raise TypeError /\
    calculate_features round2 df = Raise TypeError.
Proof.
  intros E Hnone.
  assert (Hne : collect gpx <> []) by (rewrite E; discriminate).
  rewrite (parse_gpx_nonempty geodesic gpx Hne).
  exists (built geodesic (collect gpx)).
  split; [reflexivity|].
  assert (Hcol : float_column (map elevation (collect gpx))
                 = Object (map (fun _ => ONone) (collect gpx))).
  { rewrite (float_column_all_None _ Hnone). now rewrite map_map. }
  split; [unfold built, getitem; cbn; now rewrite Hcol|].
  split; [rewrite E; reflexivity|].
  unfold calculate_features, built.
  destruct (timeless (collect gpx)); cbn; rewrite Hcol, E; reflexivity.
Qed.

(** C5 (the code on time-less tracks).  A time-less track is built, and its
    summary depends on the elevations: when some point has an elevation the
    three statistics are returned and the average speed is the rounding of
    [NaN]; when there are two or more points and none has an elevation,
    [calculate_features] raises and returns no statistic at all. *)
Theorem timeless_summary (gpx : GPX) :
  collect gpx <> [] ->
  (forall p, In p (collect gpx) -> time p = None) ->
  exists df,
    parse_gpx geodesic gpx = Ok df /\
    getitem df "speed" = Ok (Series_of_Nones (len df)) /\
    ((exists p, In p (collect gpx) /\ elevation p <> None) ->
     exists distance gain,
       calculate_features round2 df = Ok (distance, round2 nan, gain)) /\
    (2 <= List.length (collect gpx) ->
     (forall p, In p (collect gpx) -> elevation p = None) ->
     calculate_features round2 df = Raise TypeError).
Proof.
  intros Hne Hall. rewrite (parse_gpx_nonempty geodesic gpx Hne).
  apply timeless_true in Hall.
  exists (built geodesic (collect gpx)).
  split; [reflexivity|].
  split; [unfold built, getitem; cbn; now rewrite Hall|].
  split.
  - intros Hsome. apply float_column_some in Hsome.
    unfold calculate_features, built. rewrite Hall. cbn.
    rewrite nanmean_Nones, Hsome. cbn. eauto.
  - intros Hlen Hnone. apply float_column_all_None in Hnone.
    unfold calculate_features, built. rewrite Hall. cbn. rewrite Hnone.
    destruct (collect gpx) as [|p [|q rest]]; simpl in Hlen; try lia.
    reflexivity.
Qed.

(** C6 (the code at its failing inputs).  The cell of a point without
    elevation is missing in the frame, never 0: the column exists in every
    frame that has a row, so the zero default of [parse_gpx] is not reached.
    The cell is [None] when no point of the track has an elevation, and [NaN]
    when some other point has one. *)
Theorem missing_elevation_stays_missing (gpx : GPX) (i : nat) (p : GPXTrackPoint) :
  nth_error (collect gpx) i = Some p ->
  elevation p = None ->
  exists df column,
    parse_gpx geodesic gpx = Ok df /\
    getitem df "elevation" = Ok column /\
    isnull_at column i = Some true /\
    ((exists os, column = Object os /\ nth_error os i = Some ONone) \/
     (exists xs, column = Float64 xs /\ nth_error xs i = Some nan)).
Proof.
  intros Hp He.
  assert (Hne : collect gpx <> []) by (intros E; rewrite E in Hp; destruct i; discriminate).
  rewrite (parse_gpx_nonempty geodesic gpx Hne).
  exists (built geodesic (collect gpx)), (float_column (map elevation (collect gpx))).
  split; [reflexivity|]. split; [reflexivity|].
  unfold float_column.
  destruct (forallb is_None (map elevation (collect gpx))).
  - assert (H : nth_error (map (fun _ : option float => ONone) (map elevation (collect gpx))) i
                = Some ONone) by now rewrite !nth_error_map, Hp.
    split; [cbn; now rewrite H|]. left. eauto.
  - assert (H : nth_error (map (fun v => match v with Some x => x | None => nan end)
                               (map elevation (collect gpx))) i = Some nan)
      by (rewrite !nth_error_map, Hp; cbn; now rewrite He).
    split; [cbn; now rewrite H|]. right. eauto.
Qed.

Section NonNegativeDistances.

Hypothesis geodesic_nonneg : forall a b, (0 <=? geodesic a b)%float = true.

(** C7 (as the code has it).  In every frame [parse_gpx] returns, every
    distance is [>= 0].  A speed cell is the quotient of the row's distance
    by the row's duration, whatever the sign of the duration: it is [>= 0]
    when the duration is positive and the quotient is a number, and [<= 0]
    when the duration is negative and the quotient is a number; a negative
    duration is not treated apart. *)
Theorem distances_nonnegative_speed_is_quotient (gpx : GPX) (df : DataFrame) :
  parse_gpx geodesic gpx = Ok df ->
  exists dist,
    getitem df "distance" = Ok (Float64 dist) /\
    Forall (fun d => (0 <=? d)%float = true) dist /\
    forall speed,
      getitem df "speed" = Ok (Float64 speed) ->
      exists time_diff,
        getitem df "time_diff" = Ok (Float64 time_diff) /\
        forall i s,
          nth_error speed i = Some s ->
          exists d t,
            nth_error dist i = Some d /\
            nth_error time_diff i = Some t /\
            s = (d / t)%float /\
            ((0 <? t)%float = true -> PrimFloat.is_nan s = false ->
             (0 <=? s)%float = true) /\
            ((t <? 0)%float = true -> PrimFloat.is_nan s = false ->
             (s <=? 0)%float = true).
Proof.
  intros Hparse. destruct (parse_gpx_Ok_built geodesic gpx df Hparse) as [_ ->].
  set (data := collect gpx).
  exists (distance_cells geodesic data).
  split; [reflexivity|].
  split; [now apply distance_cells_nonneg|].
  intros speed Hspeed.
  destruct (timeless data) eqn:Ht.
  - rewrite (getitem_built_speed_timeless geodesic data Ht) in Hspeed. discriminate.
  - destruct (getitem_built_speed_aware geodesic data Ht) as [Hs Htd].
    rewrite Hs in Hspeed. injection Hspeed as <-.
    exists (time_diff_cells data). split; [exact Htd|].
    intros i s Hi. unfold speed_cells in Hi. rewrite nth_error_zip_with in Hi.
    destruct (nth_error (distance_cells geodesic data) i) as [d|] eqn:Hd; [|discriminate].
    destruct (nth_error (time_diff_cells data) i) as [t|] eqn:Hti; [|discriminate].
    injection Hi as <-. exists d, t.
    assert (Hdpos : (0 <=? d)%float = true).
    { pose proof (distance_cells_nonneg geodesic geodesic_nonneg data) as Hall.
      rewrite Forall_forall in Hall. apply Hall. eapply nth_error_In; eauto. }
    repeat split; [now apply div_nonneg|now apply div_nonpos].
Qed.

(** C9.  A track of N points has N rows, of which N - 1 have a successor:
    these carry the geodesic distance to it.  The last row carries 0, and
    the sum of the distance column is the sum of the N - 1 others. *)
Theorem segment_count_and_final_distance (gpx : GPX) (df : DataFrame) :
  Forall valid_point (collect gpx) ->
  parse_gpx geodesic gpx = Ok df ->
  let N := List.length (collect gpx) in
  exists ds,
    len df = N /\
    List.length (filter has_successor (apply_rows (collect gpx))) = N - 1 /\
    getitem df "distance" = Ok (Float64 (ds ++ [0%float])) /\
    List.length ds = N - 1 /\
    (forall i p q,
       nth_error (collect gpx) i = Some p -> nth_error (collect gpx) (S i) = Some q ->
       nth_error ds i = Some (geodesic (latitude p, longitude p) (latitude q, longitude q))) /\
    Series_sum (Float64 (ds ++ [0%float])) = Series_sum (Float64 ds).
Proof.
  intros Hvalid Hparse N.
  assert (Hne : collect gpx <> []).
  { intros E. rewrite (parse_gpx_empty geodesic gpx E) in Hparse. discriminate. }
  rewrite (parse_gpx_nonempty geodesic gpx Hne) in Hparse. injection Hparse as <-.
  subst N. set (data := collect gpx) in *.
  destruct (distance_cells_snoc geodesic data Hne) as (ds & Hds & Hlen).
  exists ds. split; [reflexivity|].
  split; [now apply count_has_successor|].
  split; [rewrite getitem_built_distance, Hds; reflexivity|].
  split; [exact Hlen|]. split.
  - intros i p q Hp Hq.
    assert (Hi : i < List.length ds).
    { assert (S i < List.length data) by (apply nth_error_Some; congruence). lia. }
    rewrite <- (nth_error_app1 ds [0%float] Hi), <- Hds.
    rewrite Forall_forall in Hvalid.
    destruct (Hvalid q (nth_error_In _ _ Hq)) as [Hla Hlo].
    now apply distance_cell_next.
  - cbn. f_equal. apply nansum_snoc_zero.
    pose proof (distance_cells_nonneg geodesic geodesic_nonneg data) as Hall.
    rewrite Hds in Hall. apply Forall_app in Hall. tauto.
Qed.

End NonNegativeDistances.

(** C10.  The points of all segments of all tracks form one sequence.  In
    the frame [parse_gpx] returns, the row of the last point of a segment
    holds the geodesic distance to the first point of the next segment, and,
    when both carry a timestamp, the speed over the seconds between the two,
    as inside a segment. *)
Theorem segments_are_flattened
  (gpx : GPX) (df : DataFrame)
  (before after : list GPXTrackSegment) (s1 s2 : GPXTrackSegment)
  (a b : list GPXTrackPoint) (p q : GPXTrackPoint) :
  parse_gpx geodesic gpx = Ok df ->
  all_segments gpx = before ++ s1 :: s2 :: after ->
  points s1 = a ++ [p] ->
  points s2 = q :: b ->
  valid_point q ->
  let k := List.length (flat_map points before) + List.length a in
  let hop := geodesic (latitude p, longitude p) (latitude q, longitude q) in
  exists dist,
    len df = List.length (flat_map points (all_segments gpx)) /\
    nth_error (collect gpx) k = Some p /\
    nth_error (collect gpx) (S k) = Some q /\
    getitem df "distance" = Ok (Float64 dist) /\
    nth_error dist k = Some hop /\
    forall tp tq,
      time p = Some tp -> time q = Some tq ->
      exists speed,
        getitem df "speed" = Ok (Float64 speed) /\
        nth_error speed k = Some (hop / total_seconds (tq - tp))%float.
Proof.
  intros Hparse Hs H1 H2 [Hla Hlo] k hop.
  destruct (parse_gpx_Ok_built geodesic gpx df Hparse) as [_ ->].
  pose proof (collect_boundary gpx before after s1 s2 a b p q Hs H1 H2) as Hc.
  assert (Hk : k = List.length (flat_map points before ++ a))
    by (subst k; now rewrite length_app).
  assert (Hp : nth_error (collect gpx) k = Some p)
    by (rewrite Hc, Hk; apply nth_error_middle).
  assert (Hq : nth_error (collect gpx) (S k) = Some q)
    by (rewrite Hc, Hk; apply nth_error_middle_next).
  pose proof (distance_cell_next geodesic _ _ _ _ Hp Hq Hla Hlo) as Hd.
  exists (distance_cells geodesic (collect gpx)).
  split; [cbn; now rewrite all_segments_collect|].
  split; [exact Hp|]. split; [exact Hq|].
  split; [reflexivity|]. split; [exact Hd|].
  intros tp tq Htp Htq.
  assert (Ht : timeless (collect gpx) = false).
  { apply timeless_false. exists p. split; [eapply nth_error_In; eauto|congruence]. }
  destruct (getitem_built_speed_aware geodesic _ Ht) as [Hsp _].
  exists (speed_cells geodesic (collect gpx)). split; [exact Hsp|].
  apply (speed_cell geodesic _ _ _ _ Hd).
  rewrite (time_diff_cell _ _ _ Hp), Hq, Htp, Htq. reflexivity.
Qed.

End Claims.


Section RenderingClaims.

Variable geodesic : float * float -> float * float -> float.
Variable round2 : float -> float.
Variable MAPBOX_ACCESS_TOKEN : option string.
Variable makedirs : string -> result unit.
Variable folium_Map : float * float -> string -> result unit.
Variable folium_save : list (float * float) -> string -> result unit.
Variable pyplot_elevation : Series -> Series -> string -> result unit.
Variable pyplot_hist : Series -> string -> result unit.

(** Whatever happens inside it, [create_map] has entered the map renderer
    and no other. *)
Lemma create_map_log (df : DataFrame) :
  fst (create_map MAPBOX_ACCESS_TOKEN makedirs folium_Map folium_save df) = [MapArtifact].
Proof.
  unfold create_map, io_bind, attempt, lift, ret.
  repeat (step_result; cbn [fst app]; try reflexivity).
Qed.

(** The two plot renderers return for every frame: a path, or [None]. *)
Lemma create_elevation_plot_returns (df : DataFrame) :
  exists path, create_elevation_plot pyplot_elevation df = ([ElevationProfile], Ok path).
Proof.
  unfold create_elevation_plot, try_except_None, io_bind, attempt, lift, ret.
  repeat (step_result; cbn [app]; eauto).
Qed.

Lemma create_speed_distribution_plot_returns (df : DataFrame) :
  exists path,
    create_speed_distribution_plot pyplot_hist df = ([SpeedDistribution], Ok path).
Proof.
  unfold create_speed_distribution_plot, try_except_None, io_bind, attempt, lift, ret.
  repeat (step_result; cbn [app]; eauto).
Qed.

(** Without an access token [create_map] raises for every frame: at the
    latest when it builds the tile URL. *)
Lemma create_map_without_token (df : DataFrame) :
  exists e, snd (create_map None makedirs folium_Map folium_save df) = Raise e.
Proof.
  unfold create_map, io_bind, attempt, lift, ret, str_concat.
  repeat (step_result; cbn [snd]; eauto).
Qed.

(** C8 (the code at its failing inputs).  An exception inside [create_map]
    is not caught: it ends the request.  The elevation profile is then never
    attempted and no response, hence no summary, is produced, although the
    elevation renderer itself would have returned.  (The speed-distribution
    renderer returns for every frame too, but [index] never calls it.) *)
Theorem map_failure_aborts_request
  (gpx : GPX) (df : DataFrame) (features : float * float * float) (e : exn) :
  parse_gpx geodesic gpx = Ok df ->
  calculate_features round2 df = Ok features ->
  snd (create_map MAPBOX_ACCESS_TOKEN makedirs folium_Map folium_save df) = Raise e ->
  index geodesic round2 MAPBOX_ACCESS_TOKEN makedirs folium_Map folium_save
        pyplot_elevation gpx
  = ([MapArtifact], Raise e)
  /\ (exists path, create_elevation_plot pyplot_elevation df = ([ElevationProfile], Ok path))
  /\ (exists path,
        create_speed_distribution_plot pyplot_hist df = ([SpeedDistribution], Ok path)).
Proof.
  intros Hparse Hfeatures Hmap.
  split; [|split; [apply create_elevation_plot_returns
                  |apply create_speed_distribution_plot_returns]].
  unfold index. rewrite Hparse. cbn [lift io_bind].
  rewrite Hfeatures. destruct features as [[distance speed] gain].
  pose proof (create_map_log df) as Hlog.
  destruct (create_map MAPBOX_ACCESS_TOKEN makedirs folium_Map folium_save df) as [log r].
  cbn in Hmap, Hlog. subst. reflexivity.
Qed.

End RenderingClaims.


(** * The properties at concrete documents *)

Lemma equator_geodesic_nonneg (a b : float * float) :
  (0 <=? equator_geodesic a b)%float = true.
Proof.
  unfold equator_geodesic.
  destruct (0 <=? abs (snd b - snd a) * 111319.49079327357)%float eqn:E;
    [exact E|reflexivity].
Qed.

(** C1, against the claim as stated: the last point of [mixed_track] has no
    timestamp, and the speed of the first row is a number all the same. *)
Lemma mixed_track_has_a_speed :
  ~ any_missing_time_voids_all_speeds equator_geodesic mixed_track.
Proof.
  intros H.
  assert (Hmissing : exists p, In p (collect mixed_track) /\ time p = None).
  { exists (trkpt 0 0.002 None None). split; [|reflexivity].
    right. right. left. reflexivity. }
  specialize (H Hmissing (built equator_geodesic (collect mixed_track))
                (Float64 (speed_cells equator_geodesic (collect mixed_track))) 0).
  assert (Hnull : isnull_at (Float64 (speed_cells equator_geodesic (collect mixed_track))) 0
                  = Some true).
  { apply H; [vm_compute; reflexivity|vm_compute; reflexivity|vm_compute; lia]. }
  vm_compute in Hnull. discriminate Hnull.
Qed.

(** C1 at [mixed_track]: the track is built, its speed column is numeric and
    the cell of the last row is [NaN]. *)
Lemma time_awareness_by_all_missing_witness :
  exists df speed,
    parse_gpx equator_geodesic mixed_track = Ok df /\
    getitem df "speed" = Ok (Float64 speed) /\
    nth_error speed 2 = Some nan.
Proof.
  assert (Hparse : parse_gpx equator_geodesic mixed_track
                   = Ok (built equator_geodesic (collect mixed_track)))
    by (vm_compute; reflexivity).
  destruct (time_awareness_by_all_missing equator_geodesic mixed_track _ Hparse)
    as (dist & _ & _ & _ & Haware).
  destruct Haware as (speed & Hspeed & Hcells).
  { exists (trkpt 0 0 (Some 100%float) (Some (seconds 0))).
    split; [left; reflexivity|discriminate]. }
  exists (built equator_geodesic (collect mixed_track)), speed.
  split; [exact Hparse|]. split; [exact Hspeed|].
  destruct (Hcells 2 (trkpt 0 0.002 None None) eq_refl) as (d & _ & Hcell).
  exact Hcell.
Defined.

(** C2, against the claim as stated: the two points of [same_instant_track]
    share their timestamp, and the speed between them is not missing (it is
    [+Infinity]). *)
Lemma same_instant_speed_not_missing :
  ~ zero_duration_voids_speed equator_geodesic same_instant_track.
Proof.
  intros H.
  specialize (H (built equator_geodesic (collect same_instant_track))
                (Float64 (speed_cells equator_geodesic (collect same_instant_track)))
                0 (seconds 5)).
  assert (Hnull : isnull_at (Float64 (speed_cells equator_geodesic
                                        (collect same_instant_track))) 0 = Some true).
  { apply H; vm_compute; reflexivity. }
  vm_compute in Hnull. discriminate Hnull.
Qed.

(** C2 at [same_instant_track]: the speed of the first row is a quotient by
    0. *)
Lemma zero_duration_divides_by_zero_witness :
  exists df speed d,
    parse_gpx equator_geodesic same_instant_track = Ok df /\
    getitem df "speed" = Ok (Float64 speed) /\
    nth_error speed 0 = Some (d / 0)%float.
Proof.
  assert (Hparse : parse_gpx equator_geodesic same_instant_track
                   = Ok (built equator_geodesic (collect same_instant_track)))
    by (vm_compute; reflexivity).
  destruct (zero_duration_divides_by_zero equator_geodesic same_instant_track _ 0 (seconds 5)
              Hparse eq_refl eq_refl)
    as (dist & time_diff & speed & d & _ & _ & Hspeed & _ & _ & Hcell & _).
  exists (built equator_geodesic (collect same_instant_track)), speed, d. auto.
Defined.

(** C3, against the claim as stated: the error of the empty document is the
    [KeyError] of a column lookup, not an [InputError]. *)
Lemma empty_document_not_InputError :
  parse_gpx equator_geodesic empty_document = Raise (KeyError "latitude") /\
  parse_gpx equator_geodesic empty_document <> Raise InputError.
Proof. split; [reflexivity|discriminate]. Qed.

(** C3 at [empty_document]. *)
Lemma empty_track_raises_KeyError_witness :
  parse_gpx equator_geodesic empty_document = Raise (KeyError "latitude").
Proof.
  exact (empty_track_raises_KeyError equator_geodesic empty_document eq_refl).
Defined.

(** C4 at [flat_timed_track]: two timed points without elevation. *)
Lemma elevation_gain_raises_without_elevations_witness :
  exists df,
    parse_gpx equator_geodesic flat_timed_track = Ok df /\
    calculate_features unrounded df = Raise TypeError.
Proof.
  destruct (elevation_gain_raises_without_elevations equator_geodesic unrounded
              flat_timed_track _ _ _ eq_refl)
    as (df & Hparse & _ & _ & Hraise).
  - intros r [<- | [<- | []]]; reflexivity.
  - exists df. auto.
Defined.

(** C5 at [bare_track]: scenario A of the specification. *)
Lemma timeless_summary_witness :
  exists df,
    parse_gpx equator_geodesic bare_track = Ok df /\
    calculate_features unrounded df = Raise TypeError.
Proof.
  assert (Hne : collect bare_track <> []) by discriminate.
  destruct (timeless_summary equator_geodesic unrounded bare_track Hne)
    as (df & Hparse & _ & _ & Hraise).
  - intros p [<- | [<- | [<- | []]]]; reflexivity.
  - exists df. split; [exact Hparse|]. apply Hraise.
    + vm_compute. lia.
    + intros p [<- | [<- | [<- | []]]]; reflexivity.
Defined.

(** C6 at the second point of [mixed_track]. *)
Lemma missing_elevation_stays_missing_witness :
  exists df column,
    parse_gpx equator_geodesic mixed_track = Ok df /\
    getitem df "elevation" = Ok column /\
    isnull_at column 1 = Some true.
Proof.
  destruct (missing_elevation_stays_missing equator_geodesic mixed_track 1
              (trkpt 0 0.001 None (Some (seconds 10))) eq_refl eq_refl)
    as (df & column & Hparse & Hcol & Hnull & _).
  exists df, column. auto.
Defined.

(** C7, against the claim as stated: in [backwards_track] the duration is
    -5 s and the speed is a negative number. *)
Lemma backwards_track_speed_negative :
  ~ defined_speeds_nonnegative equator_geodesic backwards_track.
Proof.
  intros H.
  specialize (H (built equator_geodesic (collect backwards_track))
                (speed_cells equator_geodesic (collect backwards_track)) 0
                (equator_geodesic (0, 0) (0, 0.001) / total_seconds (seconds 5 - seconds 10))%float).
  assert (Hpos : (0 <=? equator_geodesic (0, 0) (0, 0.001)
                        / total_seconds (seconds 5 - seconds 10))%float = true).
  { apply H; vm_compute; reflexivity. }
  vm_compute in Hpos. discriminate Hpos.
Qed.

(** C7 at [climb_track], with the geodesic of the equator. *)
Lemma distances_nonnegative_speed_is_quotient_witness :
  exists df dist,
    parse_gpx equator_geodesic climb_track = Ok df /\
    getitem df "distance" = Ok (Float64 dist) /\
    Forall (fun d => (0 <=? d)%float = true) dist.
Proof.
  assert (Hparse : parse_gpx equator_geodesic climb_track
                   = Ok (built equator_geodesic (collect climb_track)))
    by (vm_compute; reflexivity).
  destruct (distances_nonnegative_speed_is_quotient equator_geodesic
              equator_geodesic_nonneg climb_track _ Hparse)
    as (dist & Hdist & Hall & _).
  exists (built equator_geodesic (collect climb_track)), dist. auto.
Defined.

(** C8 at [climb_track] with the access token unset: the request ends in
    the [TypeError] of the tile URL, after the map renderer alone was
    entered. *)
Lemma map_failure_aborts_request_witness :
  index equator_geodesic unrounded None makedirs_ok folium_Map_ok folium_save_ok
        pyplot_elevation_ok
        climb_track
  = ([MapArtifact], Raise TypeError).
Proof.
  refine (proj1 (map_failure_aborts_request equator_geodesic unrounded None
                   makedirs_ok folium_Map_ok folium_save_ok
                   pyplot_elevation_ok pyplot_hist_ok
                   climb_track
                   (built equator_geodesic (collect climb_track))
                   _ TypeError _ _ _)).
  - vm_compute. reflexivity.
  - vm_compute. reflexivity.
  - vm_compute. reflexivity.
Defined.

(** C9 at [bare_track]: three points, two segment distances. *)
Lemma segment_count_and_final_distance_witness :
  exists ds,
    getitem (built equator_geodesic (collect bare_track)) "distance"
    = Ok (Float64 (ds ++ [0%float]))
    /\ List.length ds = 2.
Proof.
  destruct (segment_count_and_final_distance equator_geodesic equator_geodesic_nonneg
              bare_track (built equator_geodesic (collect bare_track)))
    as (ds & _ & _ & Hdist & Hlen & _).
  - repeat constructor.
  - vm_compute. reflexivity.
  - exists ds. auto.
Defined.

(** C10 at [two_segment_track]: the speed across the boundary of its two
    segments. *)
Lemma segments_are_flattened_witness :
  exists df speed,
    parse_gpx equator_geodesic two_segment_track = Ok df /\
    getitem df "speed" = Ok (Float64 speed) /\
    nth_error speed 0
    = Some (equator_geodesic (0, 0) (0, 0.001)
            / total_seconds (seconds 10 - seconds 0))%float.
Proof.
  assert (Hparse : parse_gpx equator_geodesic two_segment_track
                   = Ok (built equator_geodesic (collect two_segment_track)))
    by (vm_compute; reflexivity).
  destruct (segments_are_flattened equator_geodesic two_segment_track _
              [] [] first_segment second_segment [] []
              (trkpt 0 0 (Some 100%float) (Some (seconds 0)))
              (trkpt 0 0.001 (Some 100%float) (Some (seconds 10)))
              Hparse eq_refl eq_refl eq_refl (conj eq_refl eq_refl))
    as (dist & _ & _ & _ & _ & _ & Hspeed).
  destruct (Hspeed (seconds 0) (seconds 10) eq_refl eq_refl) as (speed & Hcol & Hcell).
  exists (built equator_geodesic (collect two_segment_track)), speed. auto.
Defined.


(** ** The scenarios of the specification *)

(** Scenario A: the two hops are equal and positive; the summary raises. *)
Example scenario_A_distances :
  exists df d,
    parse_gpx equator_geodesic bare_track = Ok df /\
    getitem df "distance" = Ok (Float64 [d; d; 0%float]) /\
    (0 <? d)%float = true /\
    getitem df "speed" = Ok (Object [ONone; ONone; ONone]) /\
    getitem df "elevation" = Ok (Object [ONone; ONone; ONone]) /\
    calculate_features unrounded df = Raise TypeError.
Proof.
  eexists. eexists. split; [vm_compute; reflexivity|].
  repeat split; vm_compute; reflexivity.
Qed.

(** Scenario B: a descent gains nothing; the average speed is [NaN]. *)
Example scenario_B_descent :
  exists df distance,
    parse_gpx equator_geodesic descent_track = Ok df /\
    calculate_features unrounded df = Ok (distance, nan, 0%float).
Proof.
  eexists. eexists. split; vm_compute; reflexivity.
Qed.

(** Scenario C: a climb from 100 m to 130 m gains 30 m. *)
Example scenario_C_climb :
  exists df distance speed,
    parse_gpx equator_geodesic climb_track = Ok df /\
    calculate_features unrounded df = Ok (distance, speed, 30%float).
Proof.
  eexists. eexists. eexists. split; vm_compute; reflexivity.
Qed.

(** Scenario D: no movement in ten seconds is a speed of 0. *)
Example scenario_D_pause :
  exists df,
    parse_gpx equator_geodesic pause_track = Ok df /\
    getitem df "distance" = Ok (Float64 [0%float; 0%float]) /\
    getitem df "speed" = Ok (Float64 [0%float; nan]).
Proof.
  eexists. split; [vm_compute; reflexivity|]. split; vm_compute; reflexivity.
Qed.

(** Scenario E: no movement in no time is 0 / 0, the missing value [NaN];
    with a movement the same division gives [+Infinity]. *)
Example scenario_E_duplicate :
  exists df df',
    parse_gpx equator_geodesic duplicate_track = Ok df /\
    getitem df "time_diff" = Ok (Float64 [0%float; nan]) /\
    getitem df "speed" = Ok (Float64 [nan; nan]) /\
    parse_gpx equator_geodesic same_instant_track = Ok df' /\
    getitem df' "speed" = Ok (Float64 [infinity; nan]).
Proof.
  eexists. eexists. split; [vm_compute; reflexivity|].
  split; [vm_compute; reflexivity|]. split; [vm_compute; reflexivity|].
  split; vm_compute; reflexivity.
Qed.

(** Going back five seconds in time over a positive distance: a negative
    speed. *)
Example backwards_track_speed :
  exists df s,
    parse_gpx equator_geodesic backwards_track = Ok df /\
    getitem df "time_diff" = Ok (Float64 [(-5)%float; nan]) /\
    getitem df "speed" = Ok (Float64 [s; nan]) /\
    (s <? 0)%float = true.
Proof.
  eexists. eexists. split; [vm_compute; reflexivity|].
  split; [vm_compute; reflexivity|]. split; vm_compute; reflexivity.
Qed.

(** With the access token unset, the request of a valid track ends in the
    [TypeError] of [create_map]; with a token and libraries that work, it is
    answered, and the elevation profile is attempted after the map. *)
Example request_with_token :
  exists response,
    index equator_geodesic unrounded (Some "pk.token") makedirs_ok folium_Map_ok
          folium_save_ok pyplot_elevation_ok climb_track
    = ([MapArtifact; ElevationProfile], Ok response)
    /\ map_file_path response = "static/maps/map.html"
    /\ plot_file_path response = Some "static/images/elevation_plot.png".
Proof.
  eexists. split; [vm_compute; reflexivity|]. split; reflexivity.
Qed.


(** * Further properties of the pipeline *)

Lemma Series_len_float_column (vs : list (option float)) :
  Series_len (float_column vs) = List.length vs.
Proof.
  unfold float_column. destruct (forallb is_None vs); cbn; now rewrite length_map.
Qed.

Lemma length_speed_cells
  (geodesic : float * float -> float * float -> float) (data : list GPXTrackPoint) :
  List.length (speed_cells geodesic data) = List.length data.
Proof.
  unfold speed_cells.
  rewrite length_zip_with, length_distance_cells, length_time_diff_cells. lia.
Qed.

Section FrameShape.

Variable geodesic : float * float -> float * float -> float.

(** X1.  The frame [parse_gpx] returns has one row per point and the columns
    latitude, longitude, elevation, time, distance, then time_diff on a
    time-aware track only, then speed; every column has as many cells as the
    frame has rows, and the three shifted helper columns are gone. *)
Theorem parse_gpx_frame_shape (gpx : GPX) (df : DataFrame) :
  parse_gpx geodesic gpx = Ok df ->
  len df = List.length (collect gpx) /\
  map fst (columns df)
  = ["latitude"; "longitude"; "elevation"; "time"; "distance"]
    ++ (if timeless (collect gpx) then ["speed"] else ["time_diff"; "speed"]) /\
  Forall (fun column => Series_len (snd column) = len df) (columns df) /\
  contains df "shifted_latitude" = false /\
  contains df "shifted_longitude" = false /\
  contains df "shifted_time" = false.
Proof.
  intros H. destruct (parse_gpx_Ok_built geodesic gpx df H) as [_ ->].
  set (data := collect gpx). unfold built, len, contains.
  destruct (timeless data); cbn.
  - repeat split; auto.
    repeat constructor; cbn;
      rewrite ?length_map, ?Series_len_float_column, ?repeat_length,
        ?length_distance_cells, ?length_map; reflexivity.
  - repeat split; auto.
    repeat constructor; cbn;
      rewrite ?length_map, ?Series_len_float_column, ?length_speed_cells,
        ?length_time_diff_cells, ?length_distance_cells, ?length_map; reflexivity.
Qed.

End FrameShape.

Lemma parse_gpx_frame_shape_witness :
  exists df,
    parse_gpx equator_geodesic mixed_track = Ok df /\
    map fst (columns df)
    = ["latitude"; "longitude"; "elevation"; "time"; "distance"; "time_diff"; "speed"].
Proof.
  exists (built equator_geodesic (collect mixed_track)).
  assert (H : parse_gpx equator_geodesic mixed_track
              = Ok (built equator_geodesic (collect mixed_track)))
    by (vm_compute; reflexivity).
  split; [exact H|].
  destruct (parse_gpx_frame_shape equator_geodesic mixed_track _ H) as (_ & Hcols & _).
  exact Hcols.
Defined.

(** ** The summary *)

Lemma calculate_features_built_no_elevation
  (geodesic : float * float -> float * float -> float) (round2 : float -> float)
  (p q : GPXTrackPoint) (rest : list GPXTrackPoint) :
  (forall r, In r (p :: q :: rest) -> elevation r = None) ->
  calculate_features round2 (built geodesic (p :: q :: rest)) = Raise TypeError.
Proof.
  intros Hnone. pose proof (float_column_all_None _ Hnone) as Hcol.
  unfold calculate_features, built. rewrite Hcol.
  destruct (timeless (p :: q :: rest)); reflexivity.
Qed.

Lemma calculate_features_built_single
  (geodesic : float * float -> float * float -> float) (round2 : float -> float)
  (p : GPXTrackPoint) :
  calculate_features round2 (built geodesic [p])
  = Ok (round2 0%float, round2 nan, round2 0%float).
Proof.
  destruct p as [la lo [e|] [t|]]; vm_compute; reflexivity.
Qed.

Lemma elevations_some_or_none (data : list GPXTrackPoint) :
  (exists p, In p data /\ elevation p <> None)
  \/ (forall p, In p data -> elevation p = None).
Proof.
  induction data as [|p data [(q & Hq & He)|Hall]].
  - right. intros p [].
  - left. exists q. split; [now right|exact He].
  - destruct (elevation p) as [e|] eqn:Ep.
    + left. exists p. split; [now left|congruence].
    + right. intros r [<-|Hr]; auto.
Qed.

Section Summary.

Variable geodesic : float * float -> float * float -> float.
Variable round2 : float -> float.

(** X2.  On a built track [calculate_features] returns exactly when the
    track has a single point or some point has an elevation; on every other
    track (two or more points, none with an elevation) it raises. *)
Theorem calculate_features_returns_iff (gpx : GPX) (df : DataFrame) :
  parse_gpx geodesic gpx = Ok df ->
  (exists features, calculate_features round2 df = Ok features)
  <-> (List.length (collect gpx) = 1
       \/ exists p, In p (collect gpx) /\ elevation p <> None).
Proof.
  intros H. destruct (parse_gpx_Ok_built geodesic gpx df H) as [Hne ->]. split.
  - intros (features & Hf).
    destruct (elevations_some_or_none (collect gpx)) as [Hsome|Hnone]; [now right|].
    left. destruct (collect gpx) as [|p [|q rest]]; [congruence|reflexivity|].
    rewrite (calculate_features_built_no_elevation geodesic round2 p q rest Hnone) in Hf.
    discriminate.
  - intros [Hone|Hsome].
    + destruct (collect gpx) as [|p [|q rest]]; try discriminate.
      rewrite calculate_features_built_single. eauto.
    + destruct (elevation_gain_on_numeric_column geodesic round2 gpx Hsome)
        as (df' & es & distance & speed & Hparse & _ & Hf & _).
      rewrite H in Hparse. injection Hparse as <-. eauto.
Qed.

(** X3.  The summary of a track of one point, whatever the point carries:
    the rounding of 0 for the distance, of [NaN] for the average speed (no
    speed sample exists) and of 0 for the elevation gain. *)
Theorem single_point_summary (gpx : GPX) (p : GPXTrackPoint) :
  collect gpx = [p] ->
  exists df,
    parse_gpx geodesic gpx = Ok df /\
    getitem df "distance" = Ok (Float64 [0%float]) /\
    calculate_features round2 df = Ok (round2 0%float, round2 nan, round2 0%float).
Proof.
  intros E.
  assert (Hne : collect gpx <> []) by (rewrite E; discriminate).
  rewrite (parse_gpx_nonempty geodesic gpx Hne), E.
  exists (built geodesic [p]). split; [reflexivity|]. split; [reflexivity|].
  apply calculate_features_built_single.
Qed.

End Summary.

Lemma calculate_features_returns_iff_witness :
  exists features,
    calculate_features unrounded (built equator_geodesic (collect descent_track))
    = Ok features.
Proof.
  assert (H : parse_gpx equator_geodesic descent_track
              = Ok (built equator_geodesic (collect descent_track)))
    by (vm_compute; reflexivity).
  apply (proj2 (calculate_features_returns_iff equator_geodesic unrounded
                  descent_track _ H)).
  right. exists (trkpt 0 0 (Some 100%float) None).
  split; [left; reflexivity|discriminate].
Defined.

Lemma single_point_summary_witness :
  exists df,
    parse_gpx equator_geodesic (single_segment [trkpt 0 0 None None]) = Ok df /\
    calculate_features unrounded df = Ok (0%float, nan, 0%float).
Proof.
  destruct (single_point_summary equator_geodesic unrounded
              (single_segment [trkpt 0 0 None None]) _ eq_refl)
    as (df & Hparse & _ & Hf).
  exists df. auto.
Defined.

(** ** Means and totals *)

Lemma fold_nansum_filter (xs : list float) (acc : float) :
  fold_left nansum_step (filter notnan xs) acc = fold_left nansum_step xs acc.
Proof.
  revert acc. induction xs as [|x xs IH]; intros acc; [reflexivity|].
  cbn [filter fold_left]. unfold notnan.
  destruct (PrimFloat.is_nan x) eqn:Hn; cbn [negb fold_left].
  - replace (nansum_step acc x) with acc by (unfold nansum_step; now rewrite Hn).
    apply IH.
  - apply IH.
Qed.

Lemma filter_notnan_idem (xs : list float) :
  filter notnan (filter notnan xs) = filter notnan xs.
Proof.
  induction xs as [|x xs IH]; [reflexivity|]. cbn [filter].
  destruct (notnan x) eqn:Hx; [|exact IH]. cbn [filter]. now rewrite Hx, IH.
Qed.

(** The mean counts the cells that are numbers, and only them. *)
Lemma nanmean_filter (xs : list float) :
  nanmean (filter notnan xs) = nanmean xs.
Proof.
  unfold nanmean, nancount, nansum.
  now rewrite filter_notnan_idem, fold_nansum_filter.
Qed.

Lemma nanmean_snoc_nan (xs : list float) : nanmean (xs ++ [nan]) = nanmean xs.
Proof.
  rewrite <- (nanmean_filter (xs ++ [nan])), filter_app. cbn [filter].
  change (notnan nan) with false. cbv iota.
  rewrite app_nil_r. apply nanmean_filter.
Qed.

(** The speed column ends in the [NaN] of the last row. *)
Lemma speed_cells_snoc
  (geodesic : float * float -> float * float -> float) (data : list GPXTrackPoint) :
  data <> [] ->
  exists speeds, speed_cells geodesic data = speeds ++ [nan]
                 /\ List.length speeds = List.length data - 1.
Proof.
  induction data as [|p [|q ps] IH]; intros Hne.
  - congruence.
  - exists []. split; reflexivity.
  - destruct IH as (speeds & Hs & Hlen); [discriminate|].
    exists ((calculate_distance geodesic
               {| row_latitude := latitude p; row_longitude := longitude p;
                  row_shifted_latitude := latitude q;
                  row_shifted_longitude := longitude q |}
             / seconds_or_nan (NaT_sub (time q) (time p)))%float :: speeds).
    split; [|simpl in *; lia].
    change (speed_cells geodesic (p :: q :: ps))
      with ((calculate_distance geodesic
               {| row_latitude := latitude p; row_longitude := longitude p;
                  row_shifted_latitude := latitude q;
                  row_shifted_longitude := longitude q |}
             / seconds_or_nan (NaT_sub (time q) (time p)))%float
            :: speed_cells geodesic (q :: ps)).
    now rewrite Hs.
Qed.

(** A non-negative number over a positive finite one is a non-negative
    number. *)
Lemma div_nonneg_number (d c : float) :
  SF_nonneg (Prim2SF d) = true ->
  (exists m e, Prim2SF c = S754_finite false m e) ->
  SF_nonneg (Prim2SF (d / c)) = true.
Proof.
  intros Hd (mc & ec & Hc). rewrite div_spec, Hc.
  destruct (Prim2SF d) as [[|]|[|]| |[|] md ed]; try discriminate Hd; try reflexivity.
  unfold SF64div, SFdiv, SFdiv_core_binary.
  set (e' := Z.min _ _). set (m' := match (ed - ec - e')%Z with
                                      | Z0 => Z.pos md
                                      | Z.pos _ => Z.shiftl (Z.pos md) (ed - ec - e')
                                      | Z.neg _ => 0%Z
                                      end).
  assert (Hm : (0 <= m')%Z).
  { subst m'. destruct (ed - ec - e')%Z; try lia. apply Z.shiftl_nonneg. lia. }
  destruct (Z.div_eucl m' (Z.pos mc)) as [q r] eqn:E.
  assert (Hq : q = (m' / Z.pos mc)%Z) by (unfold Z.div; now rewrite E).
  apply binary_round_aux_nonneg. rewrite Hq. apply Z.div_pos; lia.
Qed.

Ltac step_result_in H :=
  match type of H with
  | context [match ?r with Ok _ => _ | Raise _ => _ end] => destruct r; try discriminate H
  end.

Section MeansAndTotals.

Variable geodesic : float * float -> float * float -> float.
Variable round2 : float -> float.

(** X4.  On a time-aware track of N points the speed column is the N - 1
    segment speeds followed by the [NaN] of the last row, and the average
    speed is the rounding of 3.6 times the mean of the segment speeds that
    are numbers: neither the last row nor a segment without a speed counts
    in it. *)
Theorem average_speed_over_defined_segments (gpx : GPX) (df : DataFrame) :
  parse_gpx geodesic gpx = Ok df ->
  (exists p, In p (collect gpx) /\ time p <> None) ->
  exists speeds,
    getitem df "speed" = Ok (Float64 (speeds ++ [nan])) /\
    List.length speeds = List.length (collect gpx) - 1 /\
    forall distance speed gain,
      calculate_features round2 df = Ok (distance, speed, gain) ->
      speed = round2 (nanmean (filter notnan speeds) * 3.6)%float.
Proof.
  intros H Haware. destruct (parse_gpx_Ok_built geodesic gpx df H) as [Hne ->].
  apply timeless_false in Haware.
  destruct (getitem_built_speed_aware geodesic _ Haware) as [Hsp _].
  destruct (speed_cells_snoc geodesic _ Hne) as (speeds & Hs & Hlen).
  exists speeds. rewrite Hsp, Hs. split; [reflexivity|]. split; [exact Hlen|].
  intros distance speed gain Hf. unfold calculate_features in Hf.
  rewrite getitem_built_distance, Hsp, Hs in Hf.
  cbn [bind Series_sum Series_mean] in Hf. unfold bind in Hf.
  repeat step_result_in Hf.
  injection Hf as _ <- _. now rewrite nanmean_snoc_nan, nanmean_filter.
Qed.

Section NonNegativeTotal.

Hypothesis geodesic_nonneg : forall a b, (0 <=? geodesic a b)%float = true.

(** X5.  The total distance before rounding, the sum of the distance column
    over 1000, is a number [>= 0]; what [calculate_features] returns is its
    rounding. *)
Theorem total_distance_nonnegative (gpx : GPX) (df : DataFrame) :
  parse_gpx geodesic gpx = Ok df ->
  exists dist total,
    getitem df "distance" = Ok (Float64 dist) /\
    Series_sum (Float64 dist) = Ok total /\
    (0 <=? total / 1000)%float = true /\
    PrimFloat.is_nan (total / 1000) = false /\
    forall distance speed gain,
      calculate_features round2 df = Ok (distance, speed, gain) ->
      distance = round2 (total / 1000)%float.
Proof.
  intros H. destruct (parse_gpx_Ok_built geodesic gpx df H) as [Hne ->].
  set (data := collect gpx).
  exists (distance_cells geodesic data), (nansum (distance_cells geodesic data)).
  split; [reflexivity|]. split; [reflexivity|].
  assert (Hpos : (0 <=? nansum (distance_cells geodesic data) / 1000)%float = true).
  { apply SF_nonneg_leb, div_nonneg_number.
    - apply fold_nansum_nonneg; [reflexivity|].
      eapply Forall_impl; [|apply (distance_cells_nonneg geodesic geodesic_nonneg)].
      intros x Hx. now right.
    - do 2 eexists. vm_compute. reflexivity. }
  split; [exact Hpos|]. split; [now apply leb_zero_not_nan|].
  intros distance speed gain Hf. unfold calculate_features in Hf.
  rewrite getitem_built_distance in Hf.
  cbn [bind Series_sum] in Hf. unfold bind in Hf.
  repeat step_result_in Hf.
  now injection Hf as <- _ _.
Qed.

End NonNegativeTotal.

End MeansAndTotals.

Lemma average_speed_over_defined_segments_witness :
  exists speeds,
    getitem (built equator_geodesic (collect climb_track)) "speed"
    = Ok (Float64 (speeds ++ [nan]))
    /\ List.length speeds = 1.
Proof.
  destruct (average_speed_over_defined_segments equator_geodesic unrounded climb_track
              (built equator_geodesic (collect climb_track)))
    as (speeds & Hs & Hlen & _).
  - vm_compute. reflexivity.
  - exists (trkpt 0 0 (Some 100%float) (Some (seconds 0))).
    split; [left; reflexivity|discriminate].
  - exists speeds. auto.
Defined.

Lemma total_distance_nonnegative_witness :
  exists dist total,
    getitem (built equator_geodesic (collect climb_track)) "distance" = Ok (Float64 dist)
    /\ Series_sum (Float64 dist) = Ok total
    /\ (0 <=? total / 1000)%float = true.
Proof.
  destruct (total_distance_nonnegative equator_geodesic unrounded equator_geodesic_nonneg
              climb_track (built equator_geodesic (collect climb_track)))
    as (dist & total & Hd & Hs & Hpos & _).
  - vm_compute. reflexivity.
  - exists dist, total. auto.
Defined.

(** ** The renderers on a built track *)

Lemma combine_map {A B C : Type} (f : A -> B) (g : A -> C) (xs : list A) :
  combine (map f xs) (map g xs) = map (fun x => (f x, g x)) xs.
Proof. induction xs; cbn; congruence. Qed.

Lemma length_cumsum_from (acc : float) (xs : list float) :
  List.length (cumsum_from acc xs) = List.length xs.
Proof. revert acc. induction xs; intros acc; cbn; auto. Qed.

Lemma Series_cumsum_Float64 (xs : list float) :
  exists ys, Series_cumsum (Float64 xs) = Ok (Float64 ys)
             /\ List.length ys = List.length xs.
Proof.
  destruct xs as [|x xs]; cbn; eexists; split; try reflexivity.
  cbn. now rewrite length_cumsum_from.
Qed.

Section RenderersOnBuiltTracks.

Variable geodesic : float * float -> float * float -> float.
Variable round2 : float -> float.
Variable MAPBOX_ACCESS_TOKEN : option string.
Variable makedirs : string -> result unit.
Variable folium_Map : float * float -> string -> result unit.
Variable folium_save : list (float * float) -> string -> result unit.
Variable pyplot_elevation : Series -> Series -> string -> result unit.
Variable pyplot_hist : Series -> string -> result unit.

(** X6.  With an access token, [create_map] on a built track fails only
    where the file system or folium fails: the map is centred on the means
    of the latitudes and of the longitudes, its tile URL ends in the token,
    and its polyline runs through all points in document order. *)
Theorem create_map_on_built_track (gpx : GPX) (df : DataFrame) (token : string) :
  parse_gpx geodesic gpx = Ok df ->
  create_map (Some token) makedirs folium_Map folium_save df
  = ([MapArtifact],
     _ <- makedirs "static/maps" ;;
     _ <- folium_Map (nanmean (map latitude (collect gpx)),
                      nanmean (map longitude (collect gpx)))
                     (String.append
                        "https://api.mapbox.com/styles/v1/mapbox/streets-v11/tiles/{z}/{x}/{y}?access_token="
                        token) ;;
     _ <- folium_save (map (fun p => (latitude p, longitude p)) (collect gpx))
                      "static/maps/map.html" ;;
     Ok "static/maps/map.html").
Proof.
  intros H. destruct (parse_gpx_Ok_built geodesic gpx df H) as [_ ->].
  set (data := collect gpx).
  assert (Hlat : getitem (built geodesic data) "latitude" = Ok (Float64 (map latitude data)))
    by reflexivity.
  assert (Hlon : getitem (built geodesic data) "longitude"
                 = Ok (Float64 (map longitude data))) by reflexivity.
  assert (Hloc : locations (built geodesic data)
                 = Ok (map (fun p => (latitude p, longitude p)) data)).
  { unfold locations. rewrite Hlat, Hlon. cbn [bind]. now rewrite combine_map. }
  unfold create_map, attempt, lift, ret. rewrite Hlat, Hlon, Hloc.
  cbn [io_bind Series_mean str_concat app].
  destruct (makedirs "static/maps"); cbn [io_bind bind app]; [|reflexivity].
  destruct (folium_Map _ _); cbn [io_bind bind app]; [|reflexivity].
  destruct (folium_save _ _); reflexivity.
Qed.

(** X7.  On a built track the elevation renderer returns the path of the
    plot unless matplotlib raises, and [None] exactly then: the frame itself
    never makes it fail.  The x values are the running sum of the distance
    column over 1000, one per point; the y values are the elevation
    column. *)
Theorem create_elevation_plot_on_built_track (gpx : GPX) (df : DataFrame) :
  parse_gpx geodesic gpx = Ok df ->
  exists x y,
    (c <- Series_cumsum (Float64 (distance_cells geodesic (collect gpx))) ;;
     Series_div_scalar c 1000) = Ok x /\
    Series_len x = List.length (collect gpx) /\
    getitem df "elevation" = Ok y /\
    create_elevation_plot pyplot_elevation df
    = ([ElevationProfile],
       Ok match pyplot_elevation x y "static/images/elevation_plot.png" with
          | Ok _ => Some "static/images/elevation_plot.png"
          | Raise _ => None
          end).
Proof.
  intros H. destruct (parse_gpx_Ok_built geodesic gpx df H) as [_ ->].
  set (data := collect gpx).
  destruct (Series_cumsum_Float64 (distance_cells geodesic data)) as (ys & Hc & Hlen).
  exists (Float64 (map (fun v => v / 1000)%float ys)),
         (float_column (map elevation data)).
  split; [rewrite Hc; reflexivity|].
  split; [cbn; now rewrite length_map, Hlen, length_distance_cells|].
  split; [reflexivity|].
  assert (He : getitem (built geodesic data) "elevation"
               = Ok (float_column (map elevation data))) by reflexivity.
  unfold create_elevation_plot, attempt, lift, ret.
  rewrite getitem_built_distance. cbn [io_bind]. rewrite Hc.
  cbn [io_bind Series_div_scalar]. rewrite He. cbn [io_bind].
  destruct (pyplot_elevation _ _ _); reflexivity.
Qed.

(** X8.  On a time-aware track the speed-distribution renderer hands
    matplotlib the speed column times 3.6 and returns the path of the plot
    unless matplotlib raises, and [None] exactly then. *)
Theorem create_speed_distribution_plot_on_time_aware_track
  (gpx : GPX) (df : DataFrame) :
  parse_gpx geodesic gpx = Ok df ->
  (exists p, In p (collect gpx) /\ time p <> None) ->
  create_speed_distribution_plot pyplot_hist df
  = ([SpeedDistribution],
     Ok match pyplot_hist
                (Float64 (map (fun v => v * 3.6)%float
                              (speed_cells geodesic (collect gpx))))
                "static/images/speed_distribution_plot.png" with
        | Ok _ => Some "static/images/speed_distribution_plot.png"
        | Raise _ => None
        end).
Proof.
  intros H Haware. destruct (parse_gpx_Ok_built geodesic gpx df H) as [_ ->].
  apply timeless_false in Haware.
  destruct (getitem_built_speed_aware geodesic _ Haware) as [Hsp _].
  unfold create_speed_distribution_plot, attempt, lift, ret. rewrite Hsp.
  cbn [io_bind try_except_None Series_mul_scalar app].
  destruct (pyplot_hist _ _); reflexivity.
Qed.

(** X9.  A request never attempts the speed distribution, and attempts the
    elevation profile only after the map: the artifacts attempted are none,
    the map alone, or the map and then the elevation profile. *)
Theorem index_attempts (gpx : GPX) :
  let log := fst (index geodesic round2 MAPBOX_ACCESS_TOKEN makedirs folium_Map
                        folium_save pyplot_elevation gpx) in
  log = [] \/ log = [MapArtifact] \/ log = [MapArtifact; ElevationProfile].
Proof.
  unfold index.
  destruct (parse_gpx geodesic gpx) as [df|e]; [|now left].
  cbn [lift io_bind].
  destruct (calculate_features round2 df) as [[[distance speed] gain]|e]; [|now left].
  pose proof (create_map_log MAPBOX_ACCESS_TOKEN makedirs folium_Map folium_save df) as Hlog.
  destruct (create_map MAPBOX_ACCESS_TOKEN makedirs folium_Map folium_save df)
    as [log [path|e]]; cbn [fst] in Hlog; subst log; [|now right; left].
  destruct (create_elevation_plot_returns pyplot_elevation df) as (plot & Hplot).
  cbn [io_bind app]. rewrite Hplot. now right; right.
Qed.

(** X10.  A failure of the elevation renderer does not fail the request:
    once the track is built, summarised and mapped, the response carries the
    three statistics and the map path, whatever matplotlib does; the plot
    path is [None] when it raised. *)
Theorem elevation_failure_is_not_fatal
  (gpx : GPX) (df : DataFrame) (distance speed gain : float) (path : string) :
  parse_gpx geodesic gpx = Ok df ->
  calculate_features round2 df = Ok (distance, speed, gain) ->
  create_map MAPBOX_ACCESS_TOKEN makedirs folium_Map folium_save df
  = ([MapArtifact], Ok path) ->
  exists plot,
    create_elevation_plot pyplot_elevation df = ([ElevationProfile], Ok plot) /\
    index geodesic round2 MAPBOX_ACCESS_TOKEN makedirs folium_Map folium_save
          pyplot_elevation gpx
    = ([MapArtifact; ElevationProfile],
       Ok {| total_distance := distance;
             average_speed := speed;
             total_elevation_gain := gain;
             map_file_path := path;
             plot_file_path := plot |}).
Proof.
  intros Hparse Hf Hmap.
  destruct (create_elevation_plot_returns pyplot_elevation df) as (plot & Hplot).
  exists plot. split; [exact Hplot|].
  unfold index. rewrite Hparse. cbn [lift io_bind]. rewrite Hf, Hmap.
  cbn [io_bind app]. rewrite Hplot. reflexivity.
Qed.

End RenderersOnBuiltTracks.

Lemma create_map_on_built_track_witness :
  create_map (Some "pk.token") makedirs_ok folium_Map_ok folium_save_ok
             (built equator_geodesic (collect climb_track))
  = ([MapArtifact], Ok "static/maps/map.html").
Proof.
  rewrite (create_map_on_built_track equator_geodesic makedirs_ok folium_Map_ok
             folium_save_ok climb_track _ "pk.token"); [reflexivity|].
  vm_compute. reflexivity.
Defined.

Lemma create_elevation_plot_on_built_track_witness :
  create_elevation_plot pyplot_elevation_ok (built equator_geodesic (collect climb_track))
  = ([ElevationProfile], Ok (Some "static/images/elevation_plot.png")).
Proof.
  destruct (create_elevation_plot_on_built_track equator_geodesic pyplot_elevation_ok
              climb_track (built equator_geodesic (collect climb_track)))
    as (x & y & _ & _ & _ & Hplot).
  - vm_compute. reflexivity.
  - exact Hplot.
Defined.

Lemma create_speed_distribution_plot_on_time_aware_track_witness :
  create_speed_distribution_plot pyplot_hist_ok
    (built equator_geodesic (collect climb_track))
  = ([SpeedDistribution], Ok (Some "static/images/speed_distribution_plot.png")).
Proof.
  rewrite (create_speed_distribution_plot_on_time_aware_track equator_geodesic
             pyplot_hist_ok climb_track).
  - reflexivity.
  - vm_compute. reflexivity.
  - exists (trkpt 0 0 (Some 100%float) (Some (seconds 0))).
    split; [left; reflexivity|discriminate].
Defined.

(** A matplotlib that always raises. *)
Lemma elevation_failure_is_not_fatal_witness :
  exists response,
    index equator_geodesic unrounded (Some "pk.token") makedirs_ok folium_Map_ok
          folium_save_ok (fun _ _ _ => Raise TypeError) climb_track
    = ([MapArtifact; ElevationProfile], Ok response)
    /\ plot_file_path response = None.
Proof.
  destruct (elevation_failure_is_not_fatal equator_geodesic unrounded (Some "pk.token")
              makedirs_ok folium_Map_ok folium_save_ok (fun _ _ _ => Raise TypeError)
              climb_track (built equator_geodesic (collect climb_track))
              (nansum (distance_cells equator_geodesic (collect climb_track)) / 1000)%float
              (nanmean (speed_cells equator_geodesic (collect climb_track)) * 3.6)%float
              30%float "static/maps/map.html")
    as (plot & Hplot & Hindex).
  - vm_compute. reflexivity.
  - vm_compute. reflexivity.
  - vm_compute. reflexivity.
  - eexists. split; [exact Hindex|].
    cbn [plot_file_path]. vm_compute in Hplot. now injection Hplot as <-.
Defined.

(** * The sample listing and the route *)

(** [endswith] holds exactly of the strings that are a stem followed by the
    suffix. *)
Lemma endswith_spec (s suffix : string) :
  endswith s suffix = true <-> exists stem, s = String.append stem suffix.
Proof.
  induction s as [|c s IH]; cbn [endswith].
  - destruct (String.eqb "" suffix) eqn:E.
    + apply String.eqb_eq in E. subst. split; [exists ""; reflexivity|reflexivity].
    + split; [discriminate|]. intros ([|c stem] & Hstem); cbn in Hstem.
      * subst. now rewrite String.eqb_refl in E.
      * discriminate.
  - destruct (String.eqb (String c s) suffix) eqn:E.
    + apply String.eqb_eq in E. subst. split; [exists ""; reflexivity|reflexivity].
    + rewrite IH. split.
      * intros (stem & ->). exists (String c stem). reflexivity.
      * intros ([|c' stem] & Hstem); cbn in Hstem.
        -- subst. now rewrite String.eqb_refl in E.
        -- injection Hstem as _ ->. now exists stem.
Qed.

Section RouteFacts.

Variable geodesic : float * float -> float * float -> float.
Variable round2 : float -> float.
Variable MAPBOX_ACCESS_TOKEN : option string.
Variable makedirs : string -> result unit.
Variable folium_Map : float * float -> string -> result unit.
Variable folium_save : list (float * float) -> string -> result unit.
Variable pyplot_elevation : Series -> Series -> string -> result unit.
Variable FS : Type.
Variable listdir : FS -> string -> outcome (list string).
Variable save : FS -> string -> string -> FS * outcome unit.
Variable read : FS -> string -> outcome string.
Variable gpxpy_parse : string -> outcome GPX.
Variable rendered : FS -> GPX -> FS.

Local Abbreviation route :=
  (index_route geodesic round2 MAPBOX_ACCESS_TOKEN makedirs folium_Map folium_save
               pyplot_elevation FS listdir save read gpxpy_parse rendered).
Local Abbreviation page_of :=
  (results_page geodesic round2 MAPBOX_ACCESS_TOKEN makedirs folium_Map folium_save
                pyplot_elevation FS read gpxpy_parse rendered).

(** X11.  The sample files offered are exactly the entries of the sample
    folder whose name ends in ".gpx" (in lower case; the entry need not be a
    file). *)
Theorem sample_files_are_gpx_entries (fs : FS) (listing : list string) :
  listdir fs SAMPLE_FOLDER = Returned listing ->
  exists names,
    get_sample_files FS listdir fs = Returned names /\
    forall f, In f names <->
              In f listing /\ exists stem, f = String.append stem ".gpx".
Proof.
  intros H. unfold get_sample_files. rewrite H. eexists. split; [reflexivity|].
  intros f. rewrite filter_In, endswith_spec. reflexivity.
Qed.



(** X13.  A POST that chooses "upload" without the file part, or with a
    file of empty name, is redirected to the URL it came from: nothing is
    saved and nothing is rendered. *)
Theorem upload_without_file_redirects
  (request : Request) (fs : FS) (sample_files : list string) :
  get_sample_files FS listdir fs = Returned sample_files ->
  method request = "POST" ->
  multidict_get "file_option" (form request) = Some "upload" ->
  (multidict_get "gpxfile" (files request) = None
   \/ exists file, multidict_get "gpxfile" (files request) = Some file
                   /\ filename file = "") ->
  route request fs
  = {| fs_after := fs; attempted := []; reply := Returned (Redirect (url request)) |}.
Proof.
  intros Hl Hm Ho Hfile. unfold index_route, upload_branch.
  rewrite Hl, Hm, Ho. cbn [String.eqb Ascii.eqb Bool.eqb].
  destruct Hfile as [-> | (file & -> & ->)]; reflexivity.
Qed.

(** X14.  A POST whose [file_option] is neither "upload" nor "sample"
    reaches [parse_gpx(file_path)] with [file_path] never assigned: the
    request ends in an [UnboundLocalError], with nothing saved or
    rendered. *)
Theorem unknown_file_option_is_unbound
  (request : Request) (fs : FS) (sample_files : list string) (option : string) :
  get_sample_files FS listdir fs = Returned sample_files ->
  method request = "POST" ->
  multidict_get "file_option" (form request) = Some option ->
  option <> "upload" -> option <> "sample" ->
  route request fs
  = {| fs_after := fs; attempted := [];
       reply := Raised (UnboundLocalError "file_path") |}.
Proof.
  intros Hl Hm Ho Hu Hs. unfold index_route. rewrite Hl, Hm, Ho.
  apply String.eqb_neq in Hu, Hs. rewrite Hu, Hs. reflexivity.
Qed.


(** X16.  The name of an upload is used as the client sent it: a name that
    starts with "/" replaces the upload folder, so the file is saved, and
    then read, at that very path. *)
Theorem absolute_upload_name_leaves_folder
  (request : Request) (fs : FS) (file : FileStorage) :
  multidict_get "gpxfile" (files request) = Some file ->
  startswith (filename file) "/" = true ->
  upload_branch FS save request fs
  = match save fs (filename file) (stream file) with
    | (fs', Returned _) => Continue FS fs' (Some (filename file))
    | (fs', Raised e) => Return FS {| fs_after := fs'; attempted := []; reply := Raised e |}
    end.
Proof.
  intros Hf Hs. unfold upload_branch, os_path_join. rewrite Hf, Hs.
  destruct (filename file) as [|c name]; [discriminate Hs|]. reflexivity.
Qed.


End RouteFacts.


(** ** The route at concrete requests *)

Lemma sample_files_are_gpx_entries_witness :
  get_sample_files demo_fs demo_listdir sample_store = Returned ["climb.gpx"].
Proof.
  destruct (sample_files_are_gpx_entries demo_fs demo_listdir sample_store
              ["climb.gpx"; "notes.txt"; "old.GPX"] eq_refl) as (names & Hnames & _).
  rewrite Hnames. vm_compute in Hnames. now injection Hnames as <-.
Defined.

Lemma upload_without_file_redirects_witness :
  reply demo_fs
    (index_route equator_geodesic unrounded (Some "pk.token") makedirs_ok folium_Map_ok
       folium_save_ok pyplot_elevation_ok demo_fs demo_listdir demo_save demo_read
       demo_parse demo_rendered upload_request_without_file sample_store)
  = Returned (Redirect "http://localhost:5000/").
Proof.
  rewrite (upload_without_file_redirects equator_geodesic unrounded (Some "pk.token")
             makedirs_ok folium_Map_ok folium_save_ok pyplot_elevation_ok
             demo_fs demo_listdir demo_save demo_read demo_parse demo_rendered
             upload_request_without_file sample_store ["climb.gpx"]
             eq_refl eq_refl eq_refl (or_introl eq_refl)).
  reflexivity.
Defined.

Lemma unknown_file_option_is_unbound_witness :
  reply demo_fs
    (index_route equator_geodesic unrounded (Some "pk.token") makedirs_ok folium_Map_ok
       folium_save_ok pyplot_elevation_ok demo_fs demo_listdir demo_save demo_read
       demo_parse demo_rendered odd_request sample_store)
  = Raised (UnboundLocalError "file_path").
Proof.
  rewrite (unknown_file_option_is_unbound equator_geodesic unrounded (Some "pk.token")
             makedirs_ok folium_Map_ok folium_save_ok pyplot_elevation_ok
             demo_fs demo_listdir demo_save demo_read demo_parse demo_rendered
             odd_request sample_store ["climb.gpx"] "url" eq_refl eq_refl eq_refl).
  - reflexivity.
  - discriminate.
  - discriminate.
Defined.


Lemma absolute_upload_name_leaves_folder_witness :
  upload_branch demo_fs demo_save absolute_upload_request sample_store
  = Continue demo_fs (("/srv/app/app.py", "x") :: sample_store) (Some "/srv/app/app.py").
Proof.
  rewrite (absolute_upload_name_leaves_folder demo_fs demo_save absolute_upload_request
             sample_store _ eq_refl eq_refl).
  reflexivity.
Defined.


(** * Further properties of the track builder *)

Section BuilderFacts.

Variable geodesic : float * float -> float * float -> float.
Variable round2 : float -> float.

(** X18.  On the frame of a track of which some point has an elevation,
    the elevation gain is the rounding of the sum, over consecutive cells of
    the elevation column ([NaN] where a point has none), of
    [max(0, next - current)]; that sum is [>= 0], and it is 0 when the
    column never rises. *)
Theorem elevation_gain_is_clipped_sum (gpx : GPX) (df : DataFrame) :
  parse_gpx geodesic gpx = Ok df ->
  (exists p, In p (collect gpx) /\ elevation p <> None) ->
  exists es distance speed,
    getitem df "elevation" = Ok (Float64 es) /\
    es = map (fun p => match elevation p with Some e => e | None => nan end)
             (collect gpx) /\
    calculate_features round2 df
    = Ok (distance, speed, round2 (elevation_gain_formula es)) /\
    (0 <=? elevation_gain_formula es)%float = true /\
    (non_increasing es -> elevation_gain_formula es = 0%float).
Proof.
  intros Hparse Hsome.
  destruct (elevation_gain_on_numeric_column geodesic round2 gpx Hsome)
    as (df' & es & distance & speed & Hparse' & Hget & Hf & Hpos & Hmono).
  rewrite Hparse in Hparse'. injection Hparse' as <-.
  exists es, distance, speed.
  split; [exact Hget|]. split; [|auto].
  destruct (parse_gpx_Ok_built geodesic gpx df Hparse) as [_ ->].
  change (getitem (built geodesic (collect gpx)) "elevation")
    with (Ok (float_column (map elevation (collect gpx)))) in Hget.
  rewrite (float_column_some _ Hsome), map_map in Hget.
  now injection Hget as <-.
Qed.

(** X19.  Distances are taken on the ground: two documents whose points
    agree in latitude, longitude and time have the same distance column and
    the same speed column, whatever their elevations. *)
Theorem distance_and_speed_ignore_elevation (gpx gpx' : GPX) (df df' : DataFrame) :
  parse_gpx geodesic gpx = Ok df ->
  parse_gpx geodesic gpx' = Ok df' ->
  map (fun p => (latitude p, longitude p, time p)) (collect gpx)
  = map (fun p => (latitude p, longitude p, time p)) (collect gpx') ->
  getitem df "distance" = getitem df' "distance" /\
  getitem df "speed" = getitem df' "speed".
Proof.
  intros H H' Hsame.
  destruct (parse_gpx_Ok_built geodesic gpx df H) as [_ ->].
  destruct (parse_gpx_Ok_built geodesic gpx' df' H') as [_ ->].
  set (data := collect gpx) in *. set (data' := collect gpx') in *.
  assert (Hlat : map latitude data = map latitude data').
  { apply (f_equal (map (fun x => fst (fst x)))) in Hsame.
    now rewrite !map_map in Hsame. }
  assert (Hlon : map longitude data = map longitude data').
  { apply (f_equal (map (fun x => snd (fst x)))) in Hsame.
    now rewrite !map_map in Hsame. }
  assert (Htime : map time data = map time data').
  { apply (f_equal (map snd)) in Hsame. now rewrite !map_map in Hsame. }
  assert (Hlen : List.length data = List.length data').
  { apply (f_equal (@List.length _)) in Hlat. now rewrite !length_map in Hlat. }
  assert (Hd : distance_cells geodesic data = distance_cells geodesic data')
    by (unfold distance_cells, apply_rows; now rewrite Hlat, Hlon).
  assert (Ht : time_diff_cells data = time_diff_cells data')
    by (unfold time_diff_cells; now rewrite Htime).
  assert (Hless : timeless data = timeless data')
    by (unfold timeless; now rewrite Htime).
  split; [rewrite !getitem_built_distance; now rewrite Hd|].
  destruct (timeless data') eqn:E.
  - rewrite (getitem_built_speed_timeless geodesic data Hless),
      (getitem_built_speed_timeless geodesic data' E). now rewrite Hlen.
  - destruct (getitem_built_speed_aware geodesic data Hless) as [-> _].
    destruct (getitem_built_speed_aware geodesic data' E) as [-> _].
    unfold speed_cells. now rewrite Hd, Ht.
Qed.

(** X20.  Empty segments and empty tracks leave no trace: the frame of a
    document is that of the document without them. *)
Theorem empty_segments_and_tracks_vanish
  (before after : list GPXTrack) (left right : list GPXTrackSegment) :
  parse_gpx geodesic
    {| tracks := before
                 ++ {| segments := left ++ {| points := [] |} :: right |} :: after |}
  = parse_gpx geodesic
      {| tracks := before ++ {| segments := left ++ right |} :: after |}
  /\ parse_gpx geodesic {| tracks := before ++ {| segments := [] |} :: after |}
     = parse_gpx geodesic {| tracks := before ++ after |}.
Proof.
  assert (Hsame : forall g g', collect g = collect g' ->
                               parse_gpx geodesic g = parse_gpx geodesic g').
  { intros g g' E. unfold parse_gpx. now rewrite E. }
  split; apply Hsame; rewrite !collect_eta; cbn [tracks];
    rewrite !flat_map_app; cbn [flat_map segments points app];
    rewrite ?flat_map_app; reflexivity.
Qed.

End BuilderFacts.

Lemma elevation_gain_is_clipped_sum_witness :
  exists df distance speed,
    parse_gpx equator_geodesic climb_track = Ok df /\
    calculate_features unrounded df = Ok (distance, speed, 30%float).
Proof.
  assert (Hparse : parse_gpx equator_geodesic climb_track
                   = Ok (built equator_geodesic (collect climb_track)))
    by (vm_compute; reflexivity).
  destruct (elevation_gain_is_clipped_sum equator_geodesic unrounded climb_track _ Hparse)
    as (es & distance & speed & _ & Hes & Hf & _).
  - exists (trkpt 0 0 (Some 100%float) (Some (seconds 0))).
    split; [left; reflexivity|discriminate].
  - exists (built equator_geodesic (collect climb_track)), distance, speed.
    split; [exact Hparse|].
    rewrite Hf, Hes. vm_compute. reflexivity.
Defined.

Lemma distance_and_speed_ignore_elevation_witness :
  getitem (built equator_geodesic (collect climb_track)) "speed"
  = getitem (built equator_geodesic (collect flat_timed_track)) "speed".
Proof.
  apply (distance_and_speed_ignore_elevation equator_geodesic climb_track flat_timed_track).
  - vm_compute. reflexivity.
  - vm_compute. reflexivity.
  - reflexivity.
Defined.
